(** * metaworld-algorithms: the run orchestrator and the MTPPO algorithm

    A shallow embedding of
    - [metaworld_algorithms/types.py]               (module [Types]),
    - [metaworld_algorithms/rl/algorithms/mtppo.py] (module [MTPPO]),
    - [metaworld_algorithms/experiment.py]          (module [Experiment]),
    followed by the properties of the orchestrator's lifecycle and of the
    algorithm interface.

    Python exceptions are values of [PyError]; a computation that can raise
    returns a [PyResult].  Numerical kernels (jax, flax, distrax), the
    checkpoint store (orbax), the tracking service (wandb) and the modules of
    the package that are consumed through their interface only are records of
    operations ([MTPPO.Backend], [Experiment.Externals]); every definition is
    parametric in them.  Where a library call is refused for the way it is
    made (too many arguments, a seed out of range, a backend or a tracking
    run that is not there), the refusal is part of the definition that makes
    the call. *)

From Stdlib Require Import ZArith.
From stdpp Require Import base option list strings pretty gmap.

Open Scope Z_scope.
Open Scope string_scope.
Open Scope list_scope.

(** ** Exceptions *)

Module Py.

Inductive PyError : Type :=
| AssertionError (msg : string)   (* [assert c, msg]; [assert c] has an empty message *)
| TypeError                       (* arithmetic on [None]; a call with too many arguments *)
| AttributeError                  (* an attribute of [None] *)
| KeyError (key : string)         (* [d[key]] on a missing key *)
| RuntimeError (msg : string)
| ValueError (msg : string)
| OverflowError                   (* a Python int that does not fit the machine integer *)
| WandbError (msg : string).      (* [wandb.Error] *)

#[global] Instance PyError_eq_dec : EqDecision PyError.
Proof. solve_decision. Defined.

Inductive PyResult (A : Type) : Type :=
| Ok (a : A)
| Err (e : PyError).
Arguments Ok {A} a.
Arguments Err {A} e.

#[global] Instance PyResult_ret : MRet PyResult := λ A a, Ok a.
#[global] Instance PyResult_bind : MBind PyResult := λ A B k r,
  match r with
  | Ok a => k a
  | Err e => Err e
  end.

(** [assert c, msg] *)
Definition py_assert (c : bool) (msg : string) : PyResult unit :=
  if c then Ok tt else Err (AssertionError msg).

(** An operand that must not be [None]. *)
Definition operand {A} (o : option A) : PyResult A :=
  match o with
  | Some a => Ok a
  | None => Err TypeError
  end.

Definition is_ok {A} (r : PyResult A) : bool :=
  match r with Ok _ => true | Err _ => false end.

End Py.
Export Py.

(** ** types.py *)

Module Types.

Section Batches.
Context {Array : Type}.

Record ReplayBufferSamples : Type := {
  rb_observations : Array;
  rb_actions : Array;
  rb_next_observations : Array;
  rb_dones : Array;
  rb_rewards : Array;
}.

Record Rollout : Type := {
  (* Standard timestep data *)
  observations : Array;
  actions : Array;
  rewards : Array;
  dones : Array;
  (* Auxiliary policy outputs *)
  log_probs : option Array;
  means : option Array;
  stds : option Array;
  values : option Array;
  (* Computed statistics about observed rewards *)
  returns : option Array;
  advantages : option Array;
}.

(** [ReplayBufferSamples | Rollout] *)
Inductive Batch : Type :=
| OfReplayBufferSamples (s : ReplayBufferSamples)
| OfRollout (r : Rollout).

(** [isinstance(data, Rollout)] *)
Definition isinstance_Rollout (data : Batch) : bool :=
  match data with
  | OfRollout _ => true
  | OfReplayBufferSamples _ => false
  end.
End Batches.
Arguments ReplayBufferSamples : clear implicits.
Arguments Rollout : clear implicits.
Arguments Batch : clear implicits.

(** [CheckpointMetadata] is a dictionary read back from disk: each key may be
    missing ([d.get(k)] is [None], [d[k]] raises [KeyError]). *)
Record CheckpointMetadata : Type := {
  timestamp : option string;
  step : option Z;
  episodes_ended : option Z;
}.

Record RNGCheckpoint (PyRng NpRng : Type) : Type := {
  python_rng_state : PyRng;
  global_numpy_rng_state : NpRng;
}.
Arguments python_rng_state {PyRng NpRng} _.
Arguments global_numpy_rng_state {PyRng NpRng} _.

End Types.

(** ** rl/algorithms/mtppo.py *)

Module MTPPO.
Import Types.

(** The numerical libraries the module calls into. *)
Record Backend : Type := {
  Array : Type;                    (* jax and numpy arrays, 0-d scalars included *)
  float : Type;                    (* Python floats *)
  PRNGKeyArray : Type;
  Params : Type;                   (* parameter and gradient trees *)
  Distribution : Type;             (* distrax.Distribution *)
  OptState : Type;
  GradientTransformation : Type;   (* optax *)
  BoxSpace : Type;                 (* gym.spaces.Box, with its private generator *)
  ContinuousActionPolicyConfig : Type;
  ValueFunctionConfig : Type;
  (* jax.random; [PRNGKey] on a seed that fits 64 bits *)
  PRNGKey : Z → PRNGKeyArray;
  split : PRNGKeyArray → PRNGKeyArray * PRNGKeyArray;
  split3 : PRNGKeyArray → PRNGKeyArray * PRNGKeyArray * PRNGKeyArray;
  (* jax *)
  device_get : Array → Array;
  stop_gradient : Array → Array;
  grad : ∀ {Aux : Type}, (Params → PyResult (Array * Aux)) → Params → Params;
  tree_size : Params → Z;          (* sum(x.size for x in jax.tree.leaves(p)) *)
  (* distrax *)
  sample : Distribution → PRNGKeyArray → Array;
  sample_and_log_prob : Distribution → PRNGKeyArray → Array * Array;
  mode : Distribution → Array;
  stddev : Distribution → Array;
  entropy : Distribution → Array;
  (* jax.numpy; a Python float operand is promoted with [of_float] *)
  of_float : float → Array;
  lit : string → float;            (* a float literal, by its source text *)
  fadd : float → float → float;
  fsub : float → float → float;
  fneg : float → float;
  add : Array → Array → Array;
  sub : Array → Array → Array;
  mul : Array → Array → Array;
  div : Array → Array → Array;
  neg : Array → Array;
  square : Array → Array;          (* x ** 2 *)
  exp : Array → Array;
  abs : Array → Array;
  mean : Array → Array;
  std : Array → Array;
  maximum : Array → Array → Array;
  clip : Array → float → float → Array;
  gt_float32 : Array → float → Array;   (* jnp.array(x > c, dtype=jnp.float32) *)
  reshape_col : Array → Array;          (* x.reshape(-1, 1) *)
  stack : list Array → Array;           (* jnp.array([...]) *)
  (* optax, through flax's TrainState *)
  tx_init : GradientTransformation → Params → OptState;
  tx_update : GradientTransformation → Params → OptState → Params → Params * OptState;
  apply_updates : Params → Params → Params;
  (* gymnasium *)
  box_shape : BoxSpace → list Z;
  box_sample : BoxSpace → Array * BoxSpace;
  (* metaworld_algorithms.rl.networks and .config *)
  policy_apply : Z → ContinuousActionPolicyConfig → Params → Array → Distribution;
  policy_init : Z → ContinuousActionPolicyConfig → PRNGKeyArray → Array → Params;
  policy_optimizer : ContinuousActionPolicyConfig → GradientTransformation;
  vf_apply : ValueFunctionConfig → Params → Array → Array;
  vf_init : ValueFunctionConfig → PRNGKeyArray → Array → Params;
  vf_optimizer : ValueFunctionConfig → GradientTransformation;
}.

Section WithBackend.
Context {J : Backend}.

#[local] Abbreviation Array := (Array J).
#[local] Abbreviation float := (float J).
#[local] Abbreviation PRNGKeyArray := (PRNGKeyArray J).
#[local] Abbreviation Params := (Params J).
#[local] Abbreviation LogDict := (gmap string Array).

(** flax.training.train_state.TrainState, for a network with outputs in [Out]. *)
Record TrainState (Out : Type) : Type := {
  ts_step : Z;
  apply_fn : Params → Array → Out;
  params : Params;
  tx : GradientTransformation J;
  opt_state : OptState J;
}.
Arguments ts_step {Out} _.
Arguments apply_fn {Out} _.
Arguments params {Out} _.
Arguments tx {Out} _.
Arguments opt_state {Out} _.

Definition TrainState_create {Out} (apply_fn : Params → Array → Out)
    (params : Params) (tx : GradientTransformation J) : TrainState Out :=
  {| ts_step := 0; apply_fn := apply_fn; params := params; tx := tx;
     opt_state := tx_init J tx params |}.

Definition apply_gradients {Out} (s : TrainState Out) (grads : Params)
    : TrainState Out :=
  let '(updates, new_opt_state) := tx_update J (tx s) grads (opt_state s) (params s) in
  {| ts_step := ts_step s + 1; apply_fn := apply_fn s;
     params := apply_updates J (params s) updates; tx := tx s;
     opt_state := new_opt_state |}.

(** gym spaces; only [Box] carries data the module reads. *)
Inductive Space : Type :=
| Box (b : BoxSpace J)
| Discrete (n : Z)
| MultiDiscrete (nvec : list Z)
| MultiBinary (n : Z).

Record EnvConfig : Type := {
  action_space : Space;
  observation_space : Space;
}.

Record MTPPOConfig : Type := {
  (* AlgorithmConfig *)
  cfg_num_tasks : Z;
  cfg_gamma : float;
  (* MTPPOConfig *)
  policy_config : ContinuousActionPolicyConfig J;
  vf_config : ValueFunctionConfig J;
  cfg_clip_eps : float;
  cfg_clip_vf_loss : bool;
  cfg_entropy_coefficient : float;
  cfg_vf_coefficient : float;
  cfg_normalize_advantages : bool;
}.

Record MTPPO : Type := {
  num_tasks : Z;
  policy : TrainState (Distribution J);
  value_function : TrainState Array;
  key : PRNGKeyArray;
  gamma : float;
  clip_eps : float;
  clip_vf_loss : bool;
  entropy_coefficient : float;
  vf_coefficient : float;
  normalize_advantages : bool;
}.

(** [self.replace(...)] *)
Definition replace_key (self : MTPPO) (k : PRNGKeyArray) : MTPPO :=
  {| num_tasks := num_tasks self; policy := policy self;
     value_function := value_function self; key := k; gamma := gamma self;
     clip_eps := clip_eps self; clip_vf_loss := clip_vf_loss self;
     entropy_coefficient := entropy_coefficient self;
     vf_coefficient := vf_coefficient self;
     normalize_advantages := normalize_advantages self |}.

Definition replace_policy_key (self : MTPPO)
    (p : TrainState (Distribution J)) (k : PRNGKeyArray) : MTPPO :=
  {| num_tasks := num_tasks self; policy := p;
     value_function := value_function self; key := k; gamma := gamma self;
     clip_eps := clip_eps self; clip_vf_loss := clip_vf_loss self;
     entropy_coefficient := entropy_coefficient self;
     vf_coefficient := vf_coefficient self;
     normalize_advantages := normalize_advantages self |}.

Definition replace_value_function (self : MTPPO) (v : TrainState Array) : MTPPO :=
  {| num_tasks := num_tasks self; policy := policy self;
     value_function := v; key := key self; gamma := gamma self;
     clip_eps := clip_eps self; clip_vf_loss := clip_vf_loss self;
     entropy_coefficient := entropy_coefficient self;
     vf_coefficient := vf_coefficient self;
     normalize_advantages := normalize_advantages self |}.

Definition _sample_action (policy : TrainState (Distribution J))
    (observation : Array) (key : PRNGKeyArray) : Array * PRNGKeyArray :=
  let '(key, action_key) := split J key in
  let dist := apply_fn policy (params policy) observation in
  let action := sample J dist action_key in
  (action, key).

Definition _eval_action (policy : TrainState (Distribution J))
    (observation : Array) : Array :=
  let dist := apply_fn policy (params policy) observation in
  mode J dist.

Definition _sample_action_dist_and_value (policy : TrainState (Distribution J))
    (value_function : TrainState Array) (observation : Array) (key : PRNGKeyArray)
    : Array * Array * Array * Array * Array * PRNGKeyArray :=
  let '(key, action_key) := split J key in
  let dist := apply_fn policy (params policy) observation in
  let '(action, action_log_prob) := sample_and_log_prob J dist action_key in
  let value := apply_fn value_function (params value_function) observation in
  (action, action_log_prob, mode J dist, stddev J dist, value, key).


(** [[space.sample() for _ in range(n)]]: every draw advances the
    generator of the space. *)
Fixpoint sample_n (n : nat) (b : BoxSpace J) : list Array * BoxSpace J :=
  match n with
  | O => ([], b)
  | S n' =>
      let '(x, b1) := box_sample J b in
      let '(xs, b2) := sample_n n' b1 in
      (x :: xs, b2)
  end.

(** [np.prod(shape)] *)
Definition prod (shape : list Z) : Z := foldr Z.mul 1 shape.

(** A Python int that [np.int64] accepts. *)
Definition fits_int64 (n : Z) : bool :=
  bool_decide (- 2 ^ 63 ≤ n)%Z && bool_decide (n < 2 ^ 63)%Z.

(** [jax.random.PRNGKey(seed)] on a Python int: the seed goes through
    [np.int64] first, which raises [OverflowError] outside the 64-bit
    range. *)
Definition random_PRNGKey (seed : Z) : PyResult PRNGKeyArray :=
  if fits_int64 seed then Ok (PRNGKey J seed) else Err OverflowError.

(** [MTPPO.initialize].  The lines printed to the console are left out. *)
Definition initialize (config : MTPPOConfig) (env_config : EnvConfig) (seed : Z)
    : PyResult MTPPO :=
  match action_space env_config with
  | Box act_box =>
      match observation_space env_config with
      | Box obs_box =>
          master_key ← random_PRNGKey seed;
          let '(algorithm_key, actor_init_key, vf_init_key) := split3 J master_key in
          let dummy_obs :=
            stack J (sample_n (Z.to_nat (cfg_num_tasks config)) obs_box).1 in
          let action_dim := prod (box_shape J act_box) in
          let policy :=
            TrainState_create
              (policy_apply J action_dim (policy_config config))
              (policy_init J action_dim (policy_config config) actor_init_key dummy_obs)
              (policy_optimizer J (policy_config config)) in
          let value_function :=
            TrainState_create
              (vf_apply J (vf_config config))
              (vf_init J (vf_config config) vf_init_key dummy_obs)
              (vf_optimizer J (vf_config config)) in
          Ok {| num_tasks := cfg_num_tasks config;
                policy := policy;
                value_function := value_function;
                key := algorithm_key;
                gamma := cfg_gamma config;
                clip_eps := cfg_clip_eps config;
                clip_vf_loss := cfg_clip_vf_loss config;
                entropy_coefficient := cfg_entropy_coefficient config;
                vf_coefficient := cfg_vf_coefficient config;
                normalize_advantages := cfg_normalize_advantages config |}
      | _ => Err (AssertionError "Non-box spaces currently not supported.")
      end
  | _ => Err (AssertionError "Non-box spaces currently not supported.")
  end.

Definition get_num_params (self : MTPPO) : gmap string Z :=
  {[ "policy_num_params" := tree_size J (params (policy self));
     "vf_num_params" := tree_size J (params (value_function self)) ]}.

Definition sample_action (self : MTPPO) (observation : Array) : MTPPO * Array :=
  let '(action, key) := _sample_action (policy self) observation (key self) in
  (replace_key self key, device_get J action).

Definition sample_action_dist_and_value (self : MTPPO) (observation : Array)
    : MTPPO * Array * Array * Array * Array * Array :=
  let '(action, log_prob, mean, std, value, key) :=
    _sample_action_dist_and_value (policy self) (value_function self)
      observation (key self) in
  (replace_key self key, device_get J action, device_get J log_prob,
   device_get J mean, device_get J std, device_get J value).

Definition eval_action (self : MTPPO) (observations : Array) : Array :=
  device_get J (_eval_action (policy self) observations).

(** [jax.value_and_grad(f, has_aux=True)(p)]: [f] runs once; whatever it
    raises propagates. *)
Definition value_and_grad {Aux} (f : Params → PyResult (Array * Aux)) (p : Params)
    : PyResult ((Array * Aux) * Params) :=
  out ← f p; mret (out, grad J f p).

(** [chex.assert_equal_shape(a, b)].  The function is declared as
    [assert_equal_shape(inputs, *, dims=None)], with the sequence of arrays to
    compare as its one positional parameter; a call with two positional
    arguments is rejected with [TypeError] before any shape is compared. *)
Definition assert_equal_shape (a : Array) (b : option Array) : PyResult unit :=
  Err TypeError.

(** The closure [policy_loss] of [update_policy]. *)
Definition policy_loss (self : MTPPO) (data : Rollout Array)
    (policy_loss_key : PRNGKeyArray) (params : Params) : PyResult (Array * LogDict) :=
  let action_dist := apply_fn (policy self) params (observations data) in
  let '(_, new_log_probs) := sample_and_log_prob J action_dist policy_loss_key in
  old_log_probs ← operand (log_probs data);
  let log_ratio := sub J (reshape_col J new_log_probs) old_log_probs in
  let ratio := exp J log_ratio in
  (* For logs *)
  let approx_kl :=
    stop_gradient J
      (mean J (sub J (sub J ratio (of_float J (lit J "1"))) log_ratio)) in
  let clip_fracs :=
    stop_gradient J
      (mean J (gt_float32 J (abs J (sub J ratio (of_float J (lit J "1.0"))))
                 (clip_eps self))) in
  advantages ←
    (if normalize_advantages self then
       adv ← operand (advantages data);
       mret (Some (div J (sub J adv (mean J adv))
                     (add J (std J adv) (of_float J (lit J "1e-8")))))
     else mret (advantages data));
  adv ← operand advantages;
  let pg_loss1 := mul J (neg J adv) ratio in
  let pg_loss2 :=
    mul J (neg J adv)
      (clip J ratio (fsub J (lit J "1") (clip_eps self))
         (fadd J (lit J "1") (clip_eps self))) in
  let pg_loss := mean J (maximum J pg_loss1 pg_loss2) in
  let entropy_loss := mean J (entropy J action_dist) in
  mret (sub J pg_loss (mul J (of_float J (entropy_coefficient self)) entropy_loss),
        ({[ "losses/entropy_loss" := entropy_loss;
            "losses/policy_loss" := pg_loss;
            "losses/approx_kl" := approx_kl;
            "losses/clip_fracs" := clip_fracs ]} : LogDict)).

Definition update_policy (self : MTPPO) (data : Rollout Array)
    : PyResult (MTPPO * LogDict) :=
  let '(key, policy_loss_key) := split J (key self) in
  '(_, logs, policy_grads) ←
    value_and_grad (policy_loss self data policy_loss_key) (params (policy self));
  let policy := apply_gradients (policy self) policy_grads in
  mret (replace_policy_key self policy key, logs).

(** The closure [value_function_loss] of [update_value_function]. *)
Definition value_function_loss (self : MTPPO) (data : Rollout Array)
    (params : Params) : PyResult (Array * LogDict) :=
  let new_values := apply_fn (value_function self) params (observations data) in
  assert_equal_shape new_values (returns data);;
  py_assert (bool_decide (values data = None ∧ is_Some (returns data))) EmptyString;;
  vf_loss ←
    (if clip_vf_loss self then
       rets ← operand (returns data);
       let vf_loss_unclipped := square J (sub J new_values rets) in
       vals ← operand (values data);
       let v_clipped :=
         add J vals
           (clip J (sub J new_values vals) (fneg J (clip_eps self)) (clip_eps self)) in
       let vf_loss_clipped := square J (sub J v_clipped rets) in
       mret (mul J (of_float J (lit J "0.5"))
               (mean J (maximum J vf_loss_unclipped vf_loss_clipped)))
     else
       rets ← operand (returns data);
       mret (mul J (of_float J (lit J "0.5"))
               (mean J (square J (sub J new_values rets)))));
  mret (mul J (of_float J (vf_coefficient self)) vf_loss,
        ({[ "losses/value_function" := vf_loss;
            "losses/values" := mean J new_values ]} : LogDict)).

Definition update_value_function (self : MTPPO) (data : Rollout Array)
    : PyResult (MTPPO * LogDict) :=
  '(_, logs, vf_grads) ←
    value_and_grad (value_function_loss self data) (params (value_function self));
  let value_function := apply_gradients (value_function self) vf_grads in
  mret (replace_value_function self value_function, logs).

(** [policy_logs | vf_logs]: on a shared key the right operand wins. *)
Definition _update_inner (self : MTPPO) (data : Rollout Array)
    : PyResult (MTPPO * LogDict) :=
  '(self, policy_logs) ← update_policy self data;
  '(self, vf_logs) ← update_value_function self data;
  mret (self, vf_logs ∪ policy_logs).

Definition update (self : MTPPO) (data : Batch Array) : PyResult (MTPPO * LogDict) :=
  match data with
  | OfReplayBufferSamples _ =>
      Err (AssertionError "MTPPO does not support replay buffer samples.")
  | OfRollout data =>
      py_assert (bool_decide (is_Some (log_probs data)))
        "Rollout policy log probs must have been recorded.";;
      py_assert (bool_decide (is_Some (advantages data)))
        "GAE must be enabled for MTPPO.";;
      py_assert (bool_decide (is_Some (returns data)))
        "Returns must be computed for MTPPO.";;
      _update_inner self data
  end.

(** *** What the properties of the methods speak about *)

(** The keys [update_policy] logs under. *)
Definition policy_log_keys : list string :=
  ["losses/entropy_loss"; "losses/policy_loss"; "losses/approx_kl"; "losses/clip_fracs"].

(** The fields of an agent no method of the class writes. *)
Definition same_hyperparameters (a b : MTPPO) : Prop :=
  num_tasks a = num_tasks b
  ∧ gamma a = gamma b
  ∧ clip_eps a = clip_eps b
  ∧ clip_vf_loss a = clip_vf_loss b
  ∧ entropy_coefficient a = entropy_coefficient b
  ∧ vf_coefficient a = vf_coefficient b
  ∧ normalize_advantages a = normalize_advantages b.

(** One [apply_gradients]: the step counter goes up by one, the network and
    the optimizer stay. *)
Definition stepped {Out} (s s' : TrainState Out) : Prop :=
  ts_step s' = ts_step s + 1
  ∧ apply_fn s' = apply_fn s
  ∧ tx s' = tx s.

End WithBackend.

Arguments TrainState : clear implicits.
Arguments ts_step {J Out} _.
Arguments apply_fn {J Out} _.
Arguments params {J Out} _.
Arguments tx {J Out} _.
Arguments opt_state {J Out} _.
Arguments Space : clear implicits.
Arguments EnvConfig : clear implicits.
Arguments MTPPOConfig : clear implicits.
Arguments MTPPO : clear implicits.

(** The error [update] raises on a batch of the wrong kind. *)
Definition batch_kind_mismatch : PyError :=
  AssertionError "MTPPO does not support replay buffer samples.".



End MTPPO.

(** ** experiment.py *)

Module Experiment.
Import Types.

(** The bundle [CheckpointManager.restore] hands back
    ([metaworld_algorithms.checkpoint.Checkpoint]).  Which slots it holds
    depends on what was asked for and on what the step holds, so each slot
    may be missing; ["metadata"] may also be present and [None]. *)
Record Checkpoint (Algorithm ReplayBufferCheckpoint EnvCheckpoint PyRng NpRng : Type)
    : Type := {
  ck_agent : option Algorithm;
  ck_buffer : option ReplayBufferCheckpoint;
  ck_env_states : option EnvCheckpoint;
  ck_rngs : option (RNGCheckpoint PyRng NpRng);
  ck_metadata : option (option CheckpointMetadata);
}.
Arguments ck_agent {_ _ _ _ _} _.
Arguments ck_buffer {_ _ _ _ _} _.
Arguments ck_env_states {_ _ _ _ _} _.
Arguments ck_rngs {_ _ _ _ _} _.
Arguments ck_metadata {_ _ _ _ _} _.

(** [ocp.CheckpointManager(directory, item_names=..., options=...)]; the
    options are [max_to_keep], [create=True] and
    [best_fn=lambda x: x[best_checkpoint_metric]]. *)
Record CheckpointManager (Path : Type) : Type := {
  directory : Path;
  item_names : list string;
  max_to_keep : Z;
  best_fn : string;
}.
Arguments directory {Path} _.
Arguments item_names {Path} _.
Arguments max_to_keep {Path} _.
Arguments best_fn {Path} _.

(** What the orchestrator consumes through an interface: pathlib, the
    process-wide generators, the checkpoint store, and the modules
    [envs], [config.rl], [rl.algorithms] and [checkpoint] of the package. *)
Record Externals : Type := {
  float : Type;
  Path : Type;
  EnvConfig : Type;
  AlgorithmConfig : Type;
  TrainingConfig : Type;
  GymVectorEnv : Type;
  Algorithm : Type;
  Agent : Type;
  ReplayBuffer : Type;
  ReplayBufferCheckpoint : Type;
  EnvCheckpoint : Type;
  PyRng : Type;                    (* random.getstate() *)
  NpRng : Type;                    (* np.random.get_state() *)
  Disk : Type;                     (* the files below the data directory *)
  RestoreArgs : Type;
  SaveArgs : Type;
  (* pathlib *)
  path_join : Path → string → Path;
  path_absolute : Path → Path;
  path_str : Path → string;
  (* random, numpy.random *)
  random_seed : Z → PyRng;
  np_random_seed : Z → NpRng;
  (* metaworld_algorithms.envs *)
  spawn : EnvConfig → Z → GymVectorEnv;
  evaluate : EnvConfig → GymVectorEnv → Agent → float * float * gmap string float;
  (* metaworld_algorithms.config.rl *)
  total_steps : TrainingConfig → Z;
  isinstance_OffPolicyTrainingConfig : TrainingConfig → bool;
  (* metaworld_algorithms.rl.algorithms *)
  initialize : AlgorithmConfig → EnvConfig → Z → PyResult Algorithm;
  isinstance_OffPolicyAlgorithm : Algorithm → bool;
  spawn_replay_buffer : Algorithm → EnvConfig → TrainingConfig → ReplayBuffer;
  get_num_params : Algorithm → gmap string Z;
  train :
    Algorithm → TrainingConfig → GymVectorEnv → EnvConfig →
    string → Z → bool → option (CheckpointManager Path) →
    option CheckpointMetadata → option ReplayBufferCheckpoint →
    PyRng → NpRng →
    Agent * GymVectorEnv * PyRng * NpRng * list (Z * SaveArgs * gmap string float);
  (* metaworld_algorithms.checkpoint *)
  get_checkpoint_restore_args : Algorithm → option ReplayBuffer → RestoreArgs;
  get_metadata_only_restore_args : RestoreArgs;
  get_last_agent_checkpoint_save_args : Agent → gmap string float → SaveArgs;
  load_env_checkpoints : GymVectorEnv → EnvCheckpoint → GymVectorEnv;
  (* orbax.checkpoint.CheckpointManager *)
  cm_create : CheckpointManager Path → Disk → Disk;
  cm_latest_step : CheckpointManager Path → Disk → option Z;
  cm_restore :
    CheckpointManager Path → Z → RestoreArgs → Disk →
    PyResult (Checkpoint Algorithm ReplayBufferCheckpoint EnvCheckpoint PyRng NpRng);
  cm_save :
    CheckpointManager Path → Z → SaveArgs → gmap string float → Disk → PyResult Disk;
  cm_wait_until_finished : CheckpointManager Path → Disk → Disk;
  cm_best_step : CheckpointManager Path → Disk → option Z;
  cm_get_save_directory : Z → Path → Path;
  cm_close : CheckpointManager Path → Disk → Disk;
}.

Section WithExternals.
Context {X : Externals}.

#[local] Abbreviation Manager := (CheckpointManager (Path X)).
#[local] Abbreviation Bundle :=
  (Checkpoint (Algorithm X) (ReplayBufferCheckpoint X) (EnvCheckpoint X) (PyRng X) (NpRng X)).
#[local] Abbreviation Metrics := (gmap string (float X)).

Record Experiment : Type := {
  exp_name : string;
  seed : Z;
  data_dir : Path X;
  env : EnvConfig X;
  algorithm : AlgorithmConfig X;
  training_config : TrainingConfig X;
  checkpoint : bool;
  max_checkpoints_to_keep : Z;
  best_checkpoint_metric : string;
  resume : bool;
  (* set by __post_init__ *)
  _wandb_enabled : bool;
  _wandb_run_id : option string;
  _timestamp : string;
}.

(** Calls that leave the process, in the order they are made. *)
Inductive Event : Type :=
| EvSpawn (seed : Z)
| EvInitialize (seed : Z)
| EvRandomSeed (seed : Z)
| EvNpRandomSeed (seed : Z)
| EvOpen (m : Manager)
| EvRestore (m : Manager) (step : Z) (args : RestoreArgs X)
| EvLoadEnvCheckpoints (ck : EnvCheckpoint X)
| EvRandomSetstate (s : PyRng X)
| EvNpRandomSetState (s : NpRng X)
| EvPrint (line : string)
| EvWandbInit (dir id name : string)
| EvWandbConfigUpdate (d : gmap string Z)
| EvTrain (algorithm : Algorithm X) (m : option Manager)
| EvEvaluate (agent : Agent X)
| EvSave (m : Manager) (step : Z) (args : SaveArgs X) (metrics : Metrics)
| EvWaitUntilFinished (m : Manager)
| EvLogArtifact (name dir : string)
| EvClose (m : Manager).

(** What [jax.device_count(backend)] does in a process: it returns the number
    of devices of a backend that is present, and raises [RuntimeError] for a
    backend that is not. *)
Inductive DeviceCount : Type :=
| Devices (n : nat)
| NoBackend (msg : string).

(** The Python process: the [Experiment] object and everything [run] and
    [enable_wandb] read or write besides their locals. *)
Record State : Type := {
  self : Experiment;
  gpu_count : DeviceCount;         (* jax.device_count("gpu") *)
  tpu_count : DeviceCount;         (* jax.device_count("tpu") *)
  devices : string;                (* str(jax.devices()) *)
  py_rng : PyRng X;
  np_rng : NpRng X;
  disk : Disk X;
  wandb_run : option string;       (* wandb.run.id *)
  trace : list Event;
}.

Inductive Outcome (A : Type) : Type :=
| Done (a : A) (st : State)
| Raised (e : PyError) (st : State).
Arguments Done {A} a st.
Arguments Raised {A} e st.

Definition M (A : Type) : Type := State → Outcome A.

#[global] Instance M_ret : MRet M := λ A a st, Done a st.
#[global] Instance M_bind : MBind M := λ A B k m st,
  match m st with
  | Done a st' => k a st'
  | Raised e st' => Raised e st'
  end.

Definition final_state {A} (o : Outcome A) : State :=
  match o with Done _ st => st | Raised _ st => st end.

Definition is_done {A} (o : Outcome A) : bool :=
  match o with Done _ _ => true | Raised _ _ => false end.

(** The value a computation returned, [d] if it raised. *)
Definition value_or {A} (d : A) (o : Outcome A) : A :=
  match o with Done a _ => a | Raised _ _ => d end.

Definition get : M State := λ st, Done st st.
Definition raise {A} (e : PyError) : M A := λ st, Raised e st.
Definition lift {A} (r : PyResult A) : M A :=
  match r with Ok a => mret a | Err e => raise e end.

Definition with_self (f : Experiment → Experiment) : M unit := λ st,
  Done tt {| self := f (self st); gpu_count := gpu_count st; tpu_count := tpu_count st;
             devices := devices st; py_rng := py_rng st; np_rng := np_rng st;
             disk := disk st; wandb_run := wandb_run st; trace := trace st |}.
Definition with_py_rng (s : PyRng X) : M unit := λ st,
  Done tt {| self := self st; gpu_count := gpu_count st; tpu_count := tpu_count st;
             devices := devices st; py_rng := s; np_rng := np_rng st;
             disk := disk st; wandb_run := wandb_run st; trace := trace st |}.
Definition with_np_rng (s : NpRng X) : M unit := λ st,
  Done tt {| self := self st; gpu_count := gpu_count st; tpu_count := tpu_count st;
             devices := devices st; py_rng := py_rng st; np_rng := s;
             disk := disk st; wandb_run := wandb_run st; trace := trace st |}.
Definition with_disk (d : Disk X) : M unit := λ st,
  Done tt {| self := self st; gpu_count := gpu_count st; tpu_count := tpu_count st;
             devices := devices st; py_rng := py_rng st; np_rng := np_rng st;
             disk := d; wandb_run := wandb_run st; trace := trace st |}.
Definition with_wandb_run (r : option string) : M unit := λ st,
  Done tt {| self := self st; gpu_count := gpu_count st; tpu_count := tpu_count st;
             devices := devices st; py_rng := py_rng st; np_rng := np_rng st;
             disk := disk st; wandb_run := r; trace := trace st |}.
Definition emit (ev : Event) : M unit := λ st,
  Done tt {| self := self st; gpu_count := gpu_count st; tpu_count := tpu_count st;
             devices := devices st; py_rng := py_rng st; np_rng := np_rng st;
             disk := disk st; wandb_run := wandb_run st; trace := trace st ++ [ev] |}.

(** [d[key]] *)
Definition getitem {A} (key : string) (slot : option A) : M A :=
  match slot with
  | Some a => mret a
  | None => raise (KeyError key)
  end.

(** [assert x is not None] *)
Definition assert_not_None {A} (x : option A) : M A :=
  match x with
  | Some a => mret a
  | None => raise (AssertionError EmptyString)
  end.

(** *** The checkpoint store and the tracking service, as calls *)

Definition CheckpointManager_open (m : Manager) : M Manager :=
  emit (EvOpen m);;
  st ← get;
  with_disk (cm_create X m (disk st));;
  mret m.

Definition latest_step (m : Manager) : M (option Z) :=
  st ← get; mret (cm_latest_step X m (disk st)).

Definition restore (m : Manager) (step : Z) (args : RestoreArgs X) : M Bundle :=
  emit (EvRestore m step args);;
  st ← get;
  lift (cm_restore X m step args (disk st)).

Definition save (m : Manager) (step : Z) (args : SaveArgs X) (metrics : Metrics)
    : M unit :=
  emit (EvSave m step args metrics);;
  st ← get;
  d ← lift (cm_save X m step args metrics (disk st));
  with_disk d.

Definition wait_until_finished (m : Manager) : M unit :=
  emit (EvWaitUntilFinished m);;
  st ← get;
  with_disk (cm_wait_until_finished X m (disk st)).

Definition best_step (m : Manager) : M (option Z) :=
  st ← get; mret (cm_best_step X m (disk st)).

Definition close (m : Manager) : M unit :=
  emit (EvClose m);;
  st ← get;
  with_disk (cm_close X m (disk st)).

(** [jax.device_count(backend)] *)
Definition device_count (c : DeviceCount) : M nat :=
  match c with
  | Devices n => mret n
  | NoBackend msg => raise (RuntimeError msg)
  end.

(** A seed [np.random.seed] accepts. *)
Definition valid_np_seed (seed : Z) : bool :=
  bool_decide (0 ≤ seed)%Z && bool_decide (seed < 2 ^ 32)%Z.

(** [np.random.seed(seed)] *)
Definition np_random_seed_call (seed : Z) : M unit :=
  emit (EvNpRandomSeed seed);;
  if valid_np_seed seed then with_np_rng (np_random_seed X seed)
  else raise (ValueError "Seed must be between 0 and 2**32 - 1").

(** [wandb.config.update(d)]: before [wandb.init], [wandb.config] is a
    placeholder whose attributes raise [wandb.Error]. *)
Definition wandb_config_update (d : gmap string Z) : M unit :=
  st ← get;
  match wandb_run st with
  | Some _ => emit (EvWandbConfigUpdate d)
  | None => raise (WandbError "You must call wandb.init() before wandb.config.update")
  end.

(** [wandb.init(dir=..., id=..., name=...)]; afterwards [wandb.run.id] is the
    id passed in.  The keyword arguments forwarded from the caller are left
    out. *)
Definition wandb_init (dir id name : string) : M unit :=
  emit (EvWandbInit dir id name);;
  with_wandb_run (Some id).

(** [wandb.log_artifact] of a [wandb.Artifact(name, type="model")] holding
    one directory. *)
Definition log_artifact (name dir : string) : M unit :=
  emit (EvLogArtifact name dir).

(** *** class Experiment *)

(** [now] is [int(time.time())]. *)
Definition __post_init__ (now : Z) (e : Experiment) : Experiment :=
  {| exp_name := exp_name e; seed := seed e; data_dir := data_dir e; env := env e;
     algorithm := algorithm e; training_config := training_config e;
     checkpoint := checkpoint e; max_checkpoints_to_keep := max_checkpoints_to_keep e;
     best_checkpoint_metric := best_checkpoint_metric e; resume := resume e;
     _wandb_enabled := false; _wandb_run_id := None; _timestamp := pretty now |}.

Definition set_wandb_enabled (b : bool) (e : Experiment) : Experiment :=
  {| exp_name := exp_name e; seed := seed e; data_dir := data_dir e; env := env e;
     algorithm := algorithm e; training_config := training_config e;
     checkpoint := checkpoint e; max_checkpoints_to_keep := max_checkpoints_to_keep e;
     best_checkpoint_metric := best_checkpoint_metric e; resume := resume e;
     _wandb_enabled := b; _wandb_run_id := _wandb_run_id e;
     _timestamp := _timestamp e |}.

Definition set_wandb_run_id (r : option string) (e : Experiment) : Experiment :=
  {| exp_name := exp_name e; seed := seed e; data_dir := data_dir e; env := env e;
     algorithm := algorithm e; training_config := training_config e;
     checkpoint := checkpoint e; max_checkpoints_to_keep := max_checkpoints_to_keep e;
     best_checkpoint_metric := best_checkpoint_metric e; resume := resume e;
     _wandb_enabled := _wandb_enabled e; _wandb_run_id := r;
     _timestamp := _timestamp e |}.

Definition set_timestamp (t : string) (e : Experiment) : Experiment :=
  {| exp_name := exp_name e; seed := seed e; data_dir := data_dir e; env := env e;
     algorithm := algorithm e; training_config := training_config e;
     checkpoint := checkpoint e; max_checkpoints_to_keep := max_checkpoints_to_keep e;
     best_checkpoint_metric := best_checkpoint_metric e; resume := resume e;
     _wandb_enabled := _wandb_enabled e; _wandb_run_id := _wandb_run_id e;
     _timestamp := t |}.

(** [f"{self.exp_name}_{self.seed}"] *)
Definition name_seed (e : Experiment) : string :=
  exp_name e +:+ "_" +:+ pretty (seed e).

Definition _get_data_dir (e : Experiment) : Path X :=
  path_join X (data_dir e) (name_seed e).

(** [pathlib.Path(self._get_data_dir() / "checkpoints").absolute()] *)
Definition checkpoints_dir (e : Experiment) : Path X :=
  path_absolute X (path_join X (_get_data_dir e) "checkpoints").

Definition manager_for (e : Experiment) (items : list string) : Manager :=
  {| directory := checkpoints_dir e; item_names := items;
     max_to_keep := max_checkpoints_to_keep e;
     best_fn := best_checkpoint_metric e |}.

(** The step is read twice by the source, for the test and for the call;
    nothing touches the store in between. *)
Definition _get_latest_checkpoint_metadata : M (option CheckpointMetadata) :=
  st ← get;
  checkpoint_manager ← CheckpointManager_open (manager_for (self st) ["metadata"]);
  latest ← latest_step checkpoint_manager;
  match latest with
  | Some step =>
      ckpt ← restore checkpoint_manager step (get_metadata_only_restore_args X);
      getitem "metadata" (ck_metadata ckpt)
  | None => mret None
  end.

(** Truth value of [latest_ckpt_metadata.get("timestamp")]: [None] and the
    empty string are false. *)
Definition truthy (s : option string) : bool :=
  match s with
  | None => false
  | Some EmptyString => false
  | Some _ => true
  end.

Definition no_timestamp_warning : string :=
  "WARNING: Resume is on, a checkpoint was found, but there's no timestamp in the checkpoint.".

Definition enable_wandb : M unit :=
  with_self (set_wandb_enabled true);;
  latest_ckpt_metadata ← _get_latest_checkpoint_metadata;
  st ← get;
  let e := self st in
  run_id ←
    match latest_ckpt_metadata with
    | Some md =>
        if resume e then
          let existing_run_timestamp := timestamp md in
          if negb (truthy existing_run_timestamp) then
            emit (EvPrint no_timestamp_warning);;
            mret (name_seed e)
          else
            mret (default EmptyString existing_run_timestamp +:+ "_" +:+ name_seed e)
        else mret (_timestamp e +:+ "_" +:+ name_seed e)
    | None => mret (_timestamp e +:+ "_" +:+ name_seed e)
    end;
  with_self (set_wandb_run_id (Some run_id));;
  wandb_init (path_str X (_get_data_dir e)) run_id (exp_name e).

(** The locals of [run] that are live when [algorithm.train] is called. *)
Record Locals : Type := {
  envs : GymVectorEnv X;
  the_algorithm : Algorithm X;
  is_off_policy : bool;
  buffer_checkpoint : option (ReplayBufferCheckpoint X);
  checkpoint_manager : option Manager;
  checkpoint_metadata : option CheckpointMetadata;
}.

Definition checkpoint_items (is_off_policy : bool) : list string :=
  ["agent"; "env_states"; "rngs"; "metadata"]
  ++ (if is_off_policy then ["buffer"] else []).

(** Lines 135-164: the body of
    [if self.resume and checkpoint_manager.latest_step() is not None]. *)
Definition resume_from (m : Manager) (latest : Z) (envs : GymVectorEnv X)
    (algorithm : Algorithm X) (is_off_policy : bool) : M Locals :=
  st ← get;
  let e := self st in
  rb ←
    (if is_off_policy then
       lift (py_assert (isinstance_OffPolicyTrainingConfig X (training_config e))
               EmptyString);;
       mret (Some (spawn_replay_buffer X algorithm (env e) (training_config e)))
     else mret None);
  ckpt ← restore m latest (get_checkpoint_restore_args X algorithm rb);
  algorithm ← getitem "agent" (ck_agent ckpt);
  buffer_checkpoint ←
    (if is_off_policy then
       b ← getitem "buffer" (ck_buffer ckpt); mret (Some b)
     else mret None);
  envs_checkpoint ← getitem "env_states" (ck_env_states ckpt);
  emit (EvLoadEnvCheckpoints envs_checkpoint);;
  let envs := load_env_checkpoints X envs envs_checkpoint in
  rngs ← getitem "rngs" (ck_rngs ckpt);
  emit (EvRandomSetstate (python_rng_state rngs));;
  with_py_rng (python_rng_state rngs);;
  rngs ← getitem "rngs" (ck_rngs ckpt);
  emit (EvNpRandomSetState (global_numpy_rng_state rngs));;
  with_np_rng (global_numpy_rng_state rngs);;
  checkpoint_metadata ← getitem "metadata" (ck_metadata ckpt);
  md ← assert_not_None checkpoint_metadata;
  with_self (λ e, set_timestamp (default (_timestamp e) (timestamp md)) e);;
  loaded_step ← getitem "step" (step md);
  emit (EvPrint ("Loaded checkpoint at step " +:+ pretty loaded_step));;
  mret {| envs := envs; the_algorithm := algorithm; is_off_policy := is_off_policy;
          buffer_checkpoint := buffer_checkpoint; checkpoint_manager := Some m;
          checkpoint_metadata := Some md |}.

(** Lines 95-98 of [run].  In [a < 1 and b < 1] the second count is taken
    only when the first is 0. *)
Definition check_accelerator : M unit :=
  st ← get;
  gpu ← device_count (gpu_count st);
  no_accelerator ←
    (if (gpu <? 1)%nat then
       tpu ← device_count (tpu_count st); mret (tpu <? 1)%nat
     else mret false);
  if (no_accelerator : bool) then
    raise (RuntimeError ("No accelerator found, aborting. Devices: " +:+ devices st))
  else mret tt.

(** [run], from its first line to the call of [algorithm.train]. *)
Definition run_until_train : M Locals :=
  check_accelerator;;
  st ← get;
  let e := self st in
    emit (EvSpawn (seed e));;
    let envs := spawn X (env e) (seed e) in
    emit (EvInitialize (seed e));;
    algorithm ← lift (initialize X (algorithm e) (env e) (seed e));
    let is_off_policy := isinstance_OffPolicyAlgorithm X algorithm in
    emit (EvRandomSeed (seed e));;
    with_py_rng (random_seed X (seed e));;
    np_random_seed_call (seed e);;
    l ←
      (if checkpoint e then
         checkpoint_manager ←
           CheckpointManager_open (manager_for e (checkpoint_items is_off_policy));
         latest ← (if resume e then latest_step checkpoint_manager else mret None);
         match latest with
         | Some step => resume_from checkpoint_manager step envs algorithm is_off_policy
         | None =>
             mret {| envs := envs; the_algorithm := algorithm;
                     is_off_policy := is_off_policy; buffer_checkpoint := None;
                     checkpoint_manager := Some checkpoint_manager;
                     checkpoint_metadata := None |}
         end
       else
         mret {| envs := envs; the_algorithm := algorithm;
                 is_off_policy := is_off_policy; buffer_checkpoint := None;
                 checkpoint_manager := None; checkpoint_metadata := None |});
    (* Track number of params *)
    (if _wandb_enabled e then
       wandb_config_update (get_num_params X (the_algorithm l))
     else mret tt);;
    mret l.

(** The saves the training loop makes on its way, through the manager it
    was handed. *)
Fixpoint periodic_saves (m : option Manager)
    (saves : list (Z * SaveArgs X * Metrics)) : M unit :=
  match saves with
  | [] => mret tt
  | (step, args, metrics) :: rest =>
      match m with
      | Some m' => save m' step args metrics
      | None => mret tt
      end;;
      periodic_saves m rest
  end.

(** Modelled from the spec: the training loop.  [Algorithm.train] is defined
    in rl/algorithms/base.py, which is not among the sources; it is taken as
    the function [train] of the interface, which returns the trained agent,
    the environments and generators as it leaves them, and the periodic saves
    ("every checkpointInterval steps it triggers a save with current
    metrics"), issued in order on the manager passed to it. *)
Definition call_train (l : Locals) : M (Agent X * GymVectorEnv X) :=
  st ← get;
  let e := self st in
  emit (EvTrain (the_algorithm l) (checkpoint_manager l));;
  let '(agent, envs, py, np, saves) :=
    train X (the_algorithm l) (training_config e) (envs l) (env e) (_timestamp e)
      (seed e) (_wandb_enabled e) (checkpoint_manager l) (checkpoint_metadata l)
      (buffer_checkpoint l) (py_rng st) (np_rng st) in
  with_py_rng py;;
  with_np_rng np;;
  periodic_saves (checkpoint_manager l) saves;;
  mret (agent, envs).

(** The dictionary [final_metrics]: in [a | b] the right operand wins on a
    shared key. *)
Definition final_metrics (mean_success_rate mean_returns : float X)
    (mean_success_per_task : Metrics) : Metrics :=
  map_fold (λ task_name success_rate acc,
              <[task_name +:+ "_success_rate" := success_rate]> acc)
    ∅ mean_success_per_task
  ∪ {[ "mean_success_rate" := mean_success_rate;
       "mean_evaluation_return" := mean_returns ]}.

(** Lines 183-228 of [run]: what follows the call of [algorithm.train]. *)
Definition cleanup (l : Locals) (agent : Agent X) (envs : GymVectorEnv X) : M unit :=
  st ← get;
  let e := self st in
  (if _wandb_enabled e then
     if checkpoint e then
       emit (EvEvaluate agent);;
       let '(mean_success_rate, mean_returns, mean_success_per_task) :=
         evaluate X (env e) envs agent in
       let final_metrics :=
         final_metrics mean_success_rate mean_returns mean_success_per_task in
       checkpoint_manager ← assert_not_None (checkpoint_manager l);
       save checkpoint_manager (total_steps X (training_config e) + 1)
         (get_last_agent_checkpoint_save_args X agent final_metrics) final_metrics;;
       wait_until_finished checkpoint_manager;;
       (* Log final model checkpoint; [wandb.run.id] is read again for the
          second artifact and is the same then *)
       st ← get;
       run_id ← assert_not_None (wandb_run st);
       let final_ckpt_dir :=
         cm_get_save_directory X (total_steps X (training_config e) + 1)
           (directory checkpoint_manager) in
       log_artifact (run_id +:+ "_final_agent_checkpoint") (path_str X final_ckpt_dir);;
       (* Log best model checkpoint (by mean success rate) *)
       best ← best_step checkpoint_manager;
       best ← assert_not_None best;
       let best_ckpt_dir :=
         cm_get_save_directory X best (directory checkpoint_manager) in
       log_artifact (run_id +:+ "_best_agent_checkpoint") (path_str X best_ckpt_dir)
     else mret tt
   else mret tt);;
  match checkpoint_manager l with
  | Some m => close m
  | None => mret tt
  end.

Definition run : M unit :=
  l ← run_until_train;
  '(agent, envs) ← call_train l;
  cleanup l agent envs.

(** *** Reading the trace *)

(** The manager a call goes through or, for [train], is handed. *)
Definition manager_of (ev : Event) : option Manager :=
  match ev with
  | EvOpen m | EvRestore m _ _ | EvSave m _ _ _ | EvWaitUntilFinished m | EvClose m =>
      Some m
  | EvTrain _ m => m
  | _ => None
  end.

Definition uses_slots (slots : list string) (ev : Event) : Prop :=
  ∀ m, manager_of ev = Some m → item_names m = slots.

(** The steps saved, in the order of the saves. *)
Definition saved_steps (evs : list Event) : list Z :=
  omap (λ ev, match ev with EvSave _ at_step _ _ => Some at_step | _ => None end) evs.

Definition is_train (ev : Event) : bool :=
  match ev with EvTrain _ _ => true | _ => false end.

(** An event of the part of [run] that precedes training, for a run whose
    slots are [slots]. *)
Definition setup_event (slots : list string) (ev : Event) : Prop :=
  is_train ev = false ∧ uses_slots slots ev.

(** Run from [st], [m] adds to the trace only events that satisfy [P],
    whether it returns or raises, and what it returns satisfies [Q]. *)
Definition emits_at {A} (P : Event → Prop) (Q : A → Prop) (m : M A) (st : State)
    : Prop :=
  ∃ evs, trace (final_state (m st)) = trace st ++ evs
         ∧ Forall P evs
         ∧ ∀ a st', m st = Done a st' → Q a.

(** The family of the algorithm [run] initialises, which is the family it
    keeps for the whole run. *)
Definition off_policy_run (st : State) : bool :=
  match initialize X (algorithm (self st)) (env (self st)) (seed (self st)) with
  | Ok alg => isinstance_OffPolicyAlgorithm X alg
  | Err _ => false
  end.

(** The experiment with its timestamp blanked: the fields [run] reads and
    never writes. *)
Definition config (e : Experiment) : Experiment := set_timestamp EmptyString e.

Definition keeps_config {A} (m : M A) : Prop :=
  ∀ st a st', m st = Done a st' → config (self st') = config (self st).

(** *** What the claims about [run] and [enable_wandb] say *)

(** The manager [run] opens for an algorithm [alg]. *)
Definition run_manager (st : State) (alg : Algorithm X) : Manager :=
  manager_for (self st) (checkpoint_items (isinstance_OffPolicyAlgorithm X alg)).

(** The latest step the store reports once it is opened. *)
Definition latest_checkpoint (st : State) (alg : Algorithm X) : option Z :=
  cm_latest_step X (run_manager st alg) (cm_create X (run_manager st alg) (disk st)).

(** [train] is about to be called, with locals [l] in state [st1], on what a
    restore of step [s] returned: agent, environment states, both
    generators and metadata, and the buffer exactly for an off-policy
    algorithm. *)
Definition restored_from (st : State) (alg : Algorithm X) (s : Z)
    (l : Locals) (st1 : State) : Prop :=
  let e := self st in
  let off := isinstance_OffPolicyAlgorithm X alg in
  let rb :=
    if off then Some (spawn_replay_buffer X alg (env e) (training_config e))
    else None in
  ∃ ck es rngs md,
    cm_restore X (run_manager st alg) s (get_checkpoint_restore_args X alg rb)
      (cm_create X (run_manager st alg) (disk st)) = Ok ck
    ∧ ck_agent ck = Some (the_algorithm l)
    ∧ ck_env_states ck = Some es
    ∧ envs l = load_env_checkpoints X (spawn X (env e) (seed e)) es
    ∧ ck_rngs ck = Some rngs
    ∧ py_rng st1 = python_rng_state rngs
    ∧ np_rng st1 = global_numpy_rng_state rngs
    ∧ ck_metadata ck = Some (Some md)
    ∧ checkpoint_metadata l = Some md
    ∧ (if off then ∃ b, ck_buffer ck = Some b ∧ buffer_checkpoint l = Some b
       else buffer_checkpoint l = None).

(** C1 as the specification words it: resume requested and a latest step in
    the store are enough for training to start from that step. *)
Definition resume_claim (st : State) : Prop :=
  resume (self st) = true →
  ∀ alg s,
    initialize X (algorithm (self st)) (env (self st)) (seed (self st)) = Ok alg →
    latest_checkpoint st alg = Some s →
    ∀ l st1, run_until_train st = Done l st1 → restored_from st alg s l st1.

(** C2 as the specification words it, in its last clause: a run that starts
    fresh, that is, one that reaches [train] with nothing restored, has the
    id made from the timestamp taken when the process started. *)
Definition fresh_run_id_claim (st : State) : Prop :=
  ∀ st2 l st3,
    enable_wandb st = Done tt st2 →
    run_until_train st2 = Done l st3 →
    checkpoint_metadata l = None →
    _wandb_run_id (self st2)
    = Some (_timestamp (self st) +:+ "_" +:+ name_seed (self st)).

(** C3 as the specification words it: checkpointing enabled is enough for a
    completed run to have saved a final checkpoint, at [total_steps + 1]. *)
Definition final_checkpoint_claim (st : State) : Prop :=
  checkpoint (self st) = true →
  ∀ st3, run st = Done tt st3 →
    ∃ m args metrics,
      EvSave m (total_steps X (training_config (self st)) + 1) args metrics
      ∈ trace st3.

(** Some GPU or TPU device exists. *)
Definition has_accelerator (st : State) : bool :=
  match gpu_count st, tpu_count st with
  | Devices (S _), _ | _, Devices (S _) => true
  | _, _ => false
  end.

(** Lines 95-98 let the run go on: jax counts a GPU, or it counts no device
    of a GPU backend that is present and counts a TPU. *)
Definition passes_accelerator_check (st : State) : bool :=
  match gpu_count st with
  | Devices (S _) => true
  | Devices O =>
      match tpu_count st with
      | Devices (S _) => true
      | _ => false
      end
  | NoBackend _ => false
  end.

(** The error lines 95-98 stop on when they do not: the error of the first
    count that raises, or else the error of line 96. *)
Definition accelerator_error (st : State) : PyError :=
  match gpu_count st with
  | NoBackend msg => RuntimeError msg
  | Devices _ =>
      match tpu_count st with
      | NoBackend msg => RuntimeError msg
      | Devices _ =>
          RuntimeError ("No accelerator found, aborting. Devices: " +:+ devices st)
      end
  end.


(** *** What the further properties of [run] speak about *)

(** A tracked run has an active tracking run to report to. *)
Definition tracking_ready (st : State) : bool :=
  match wandb_run st with
  | Some _ => true
  | None => negb (_wandb_enabled (self st))
  end.

(** The error of [wandb.config.update] before [wandb.init]. *)
Definition wandb_not_initialised : PyError :=
  WandbError "You must call wandb.init() before wandb.config.update".

(** The error of [np.random.seed] on a seed outside its range. *)
Definition seed_out_of_range : PyError :=
  ValueError "Seed must be between 0 and 2**32 - 1".

Definition raises {A} (m : M A) (st : State) (e : PyError) : Prop :=
  ∃ st', m st = Raised e st'.

(** The error a computation stopped on, if it did. *)
Definition error_of {A} (o : Outcome A) : option PyError :=
  match o with Done _ _ => None | Raised e _ => Some e end.

Definition missing {A} (slot : option A) : bool :=
  match slot with Some _ => false | None => true end.

(** What lines 146-164 of [run] trip over in a restored bundle, read in the
    order of the subscripts: ["agent"], ["buffer"] for an off-policy
    algorithm, ["env_states"], ["rngs"], ["metadata"], the assertion on the
    metadata and its ["step"]. *)
Definition resume_error (off : bool) (ck : Bundle) : option PyError :=
  if missing (ck_agent ck) then Some (KeyError "agent")
  else if off && missing (ck_buffer ck) then Some (KeyError "buffer")
  else if missing (ck_env_states ck) then Some (KeyError "env_states")
  else if missing (ck_rngs ck) then Some (KeyError "rngs")
  else
    match ck_metadata ck with
    | None => Some (KeyError "metadata")
    | Some None => Some (AssertionError EmptyString)
    | Some (Some md) => if missing (step md) then Some (KeyError "step") else None
    end.

(** The arguments of the restore a resumed run makes. *)
Definition resume_restore_args (st : State) (alg : Algorithm X) : RestoreArgs X :=
  let e := self st in
  get_checkpoint_restore_args X alg
    (if isinstance_OffPolicyAlgorithm X alg
     then Some (spawn_replay_buffer X alg (env e) (training_config e))
     else None).

(** The events of the part of [run] that every run with an accelerator and an
    algorithm goes through first. *)
Definition seeding_events (e : Experiment) : list Event :=
  [EvSpawn (seed e); EvInitialize (seed e); EvRandomSeed (seed e);
   EvNpRandomSeed (seed e)].

(** The report of the number of parameters, made on a tracked run. *)
Definition tracking_events (e : Experiment) (alg : Algorithm X) : list Event :=
  if _wandb_enabled e then [EvWandbConfigUpdate (get_num_params X alg)] else [].

Definition not_train (ev : Event) : Prop := is_train ev = false.

(** What [run] never writes: the experiment but for its timestamp, and the
    active tracking run. *)
Definition run_frame (st : State) : Experiment * option string :=
  (config (self st), wandb_run st).

(** [m] leaves [f] of the state as it found it, whether it returns or
    raises. *)
Definition preserves {A B} (f : State → B) (m : M A) : Prop :=
  ∀ st, f (final_state (m st)) = f st.

Definition is_wandb_init (ev : Event) : bool :=
  match ev with EvWandbInit _ _ _ => true | _ => false end.

End WithExternals.

Arguments Done {X A} a st.
Arguments Raised {X A} e st.
Arguments Experiment : clear implicits.
Arguments State : clear implicits.
Arguments Event : clear implicits.
Arguments Locals : clear implicits.
Arguments Outcome : clear implicits.
Arguments M : clear implicits.

End Experiment.

(** ** Concrete instances

    A small backend and a small set of collaborators on which the
    definitions above run. *)

Module Fixture.
Import Types.

(** Arrays, floats, keys and parameters are integers; a distribution is its
    mode; a box is its shape and the state of its generator. *)
Definition J0 : MTPPO.Backend := {|
  MTPPO.Array := Z;
  MTPPO.float := Z;
  MTPPO.PRNGKeyArray := Z;
  MTPPO.Params := Z;
  MTPPO.Distribution := Z;
  MTPPO.OptState := Z;
  MTPPO.GradientTransformation := Z;
  MTPPO.BoxSpace := list Z * Z;
  MTPPO.ContinuousActionPolicyConfig := unit;
  MTPPO.ValueFunctionConfig := unit;
  MTPPO.PRNGKey := λ seed, seed;
  MTPPO.split := λ k, (2 * k, 2 * k + 1);
  MTPPO.split3 := λ k, (3 * k, 3 * k + 1, 3 * k + 2);
  MTPPO.device_get := λ a, a;
  MTPPO.stop_gradient := λ a, a;
  MTPPO.grad := λ _ _ p, p;
  MTPPO.tree_size := λ _, 1;
  MTPPO.sample := λ d k, d + k;
  MTPPO.sample_and_log_prob := λ d k, (d + k, - k);
  MTPPO.mode := λ d, d;
  MTPPO.stddev := λ _, 1;
  MTPPO.entropy := λ _, 1;
  MTPPO.of_float := λ x, x;
  MTPPO.lit := λ text, if decide (text = "1") then 1 else if decide (text = "1.0") then 1 else 0;
  MTPPO.fadd := Z.add;
  MTPPO.fsub := Z.sub;
  MTPPO.fneg := Z.opp;
  MTPPO.add := Z.add;
  MTPPO.sub := Z.sub;
  MTPPO.mul := Z.mul;
  MTPPO.div := Z.div;
  MTPPO.neg := Z.opp;
  MTPPO.square := λ x, x * x;
  MTPPO.exp := λ x, x;
  MTPPO.abs := Z.abs;
  MTPPO.mean := λ x, x;
  MTPPO.std := λ _, 0;
  MTPPO.maximum := Z.max;
  MTPPO.clip := λ x lo hi, Z.max lo (Z.min x hi);
  MTPPO.gt_float32 := λ x c, if decide (c < x) then 1 else 0;
  MTPPO.reshape_col := λ x, x;
  MTPPO.stack := λ xs, foldr Z.add 0 xs;
  MTPPO.tx_init := λ _ _, 0;
  MTPPO.tx_update := λ _ g o _, (g, o + 1);
  MTPPO.apply_updates := Z.add;
  MTPPO.box_shape := λ b, b.1;
  MTPPO.box_sample := λ b, (b.2, (b.1, b.2 + 1));
  MTPPO.policy_apply := λ dim _ p obs, dim * p + obs;
  MTPPO.policy_init := λ dim _ k obs, dim + k + obs;
  MTPPO.policy_optimizer := λ _, 0;
  MTPPO.vf_apply := λ _ p obs, p + obs;
  MTPPO.vf_init := λ _ k obs, k + obs;
  MTPPO.vf_optimizer := λ _, 0;
|}.




(** An agent with the fields [initialize] gives it, clipping of the value
    loss switched on as it is by default. *)
Definition mtppo0 : MTPPO.MTPPO J0 :=
  @MTPPO.Build_MTPPO J0 2
    (@MTPPO.TrainState_create J0 Z (λ p obs, 4 * p + obs) 7 0)
    (@MTPPO.TrainState_create J0 Z (λ p obs, p + obs) 9 0)
    3 1 1 true 1 1 true.

(** A rollout as the PPO collection loop leaves it: every field recorded. *)
Definition full_rollout : Rollout Z := {|
  observations := 5; actions := 1; rewards := 1; dones := 0;
  log_probs := Some 1; means := Some 0; stds := Some 1; values := Some 2;
  returns := Some 3; advantages := Some 1;
|}.

Definition replay_samples : ReplayBufferSamples Z := {|
  rb_observations := 5; rb_actions := 1; rb_next_observations := 6;
  rb_dones := 0; rb_rewards := 1;
|}.

(** *** Collaborators of the orchestrator

    An algorithm is its family ([true] for off-policy) and one number; paths
    are strings; generator states, environments and metrics are integers.
    The store keeps every saved step, oldest first, with the bundle and the
    metrics it was saved with. *)

Definition Bundle0 : Type := Experiment.Checkpoint (bool * Z) Z Z Z Z.
Definition Disk0 : Type := list (Z * Bundle0 * gmap string Z).

Definition latest_step0 (d : Disk0) : option Z :=
  foldr (λ entry acc,
           match acc with
           | Some s => Some (Z.max entry.1.1 s)
           | None => Some entry.1.1
           end) None d.

Definition find_step0 (step : Z) (d : Disk0) : option Bundle0 :=
  (λ entry : Z * Bundle0 * gmap string Z, entry.1.2)
    <$> find (λ entry, bool_decide (entry.1.1 = step)) (reverse d).

Definition has_slot0 (b : Bundle0) (name : string) : bool :=
  if decide (name = "agent") then bool_decide (is_Some (Experiment.ck_agent b))
  else if decide (name = "buffer") then bool_decide (is_Some (Experiment.ck_buffer b))
  else if decide (name = "env_states") then
    bool_decide (is_Some (Experiment.ck_env_states b))
  else if decide (name = "rngs") then bool_decide (is_Some (Experiment.ck_rngs b))
  else if decide (name = "metadata") then
    bool_decide (is_Some (Experiment.ck_metadata b))
  else false.

Definition only_slots0 (names : list string) (b : Bundle0) : Bundle0 :=
  {| Experiment.ck_agent :=
       if bool_decide ("agent" ∈ names) then Experiment.ck_agent b else None;
     Experiment.ck_buffer :=
       if bool_decide ("buffer" ∈ names) then Experiment.ck_buffer b else None;
     Experiment.ck_env_states :=
       if bool_decide ("env_states" ∈ names) then Experiment.ck_env_states b else None;
     Experiment.ck_rngs :=
       if bool_decide ("rngs" ∈ names) then Experiment.ck_rngs b else None;
     Experiment.ck_metadata :=
       if bool_decide ("metadata" ∈ names) then Experiment.ck_metadata b else None |}.

(** A restore fails when the step or one of the items asked for is missing. *)
Definition restore0 (step : Z) (names : list string) (d : Disk0) : PyResult Bundle0 :=
  match find_step0 step d with
  | None => Err (RuntimeError "no such checkpoint step")
  | Some b =>
      if forallb (has_slot0 b) names then Ok (only_slots0 names b)
      else Err (RuntimeError "checkpoint item missing")
  end.

(** The step with the largest value of the metric; on a tie the most recent. *)
Definition best_step0 (metric : string) (d : Disk0) : option Z :=
  fst <$>
    foldl (λ (best : option (Z * Z)) (entry : Z * Bundle0 * gmap string Z),
             match (entry.2 : gmap string Z) !! metric with
             | None => best
             | Some v =>
                 match best with
                 | Some (s, bv) => if decide (bv ≤ v)%Z then Some (entry.1.1, v) else best
                 | None => Some (entry.1.1, v)
                 end
             end) None d.

Definition metadata0 (ts : string) (at_step : Z) : CheckpointMetadata :=
  {| timestamp := Some ts; step := Some at_step; episodes_ended := Some 0 |}.

Definition bundle0 (alg : bool * Z) (envs py np : Z) (md : CheckpointMetadata)
    : Bundle0 :=
  {| Experiment.ck_agent := Some alg;
     Experiment.ck_buffer := if alg.1 then Some 0 else None;
     Experiment.ck_env_states := Some envs;
     Experiment.ck_rngs :=
       Some {| python_rng_state := py; global_numpy_rng_state := np |};
     Experiment.ck_metadata := Some (Some md) |}.

Definition X0 : Experiment.Externals := {|
  Experiment.float := Z;
  Experiment.Path := string;
  Experiment.EnvConfig := unit;
  Experiment.AlgorithmConfig := bool;
  Experiment.TrainingConfig := Z * bool;
  Experiment.GymVectorEnv := Z;
  Experiment.Algorithm := bool * Z;
  Experiment.Agent := bool * Z;
  Experiment.ReplayBuffer := unit;
  Experiment.ReplayBufferCheckpoint := Z;
  Experiment.EnvCheckpoint := Z;
  Experiment.PyRng := Z;
  Experiment.NpRng := Z;
  Experiment.Disk := Disk0;
  Experiment.RestoreArgs := list string;
  Experiment.SaveArgs := Bundle0;
  Experiment.path_join := λ p name, p +:+ "/" +:+ name;
  Experiment.path_absolute := λ p, "/work/" +:+ p;
  Experiment.path_str := λ p, p;
  Experiment.random_seed := λ seed, seed;
  Experiment.np_random_seed := λ seed, seed + 1;
  Experiment.spawn := λ _ seed, seed;
  Experiment.evaluate := λ _ envs agent, (30, envs, {[ "reach" := 30 ]});
  Experiment.total_steps := λ tc, tc.1;
  Experiment.isinstance_OffPolicyTrainingConfig := λ tc, tc.2;
  Experiment.initialize := λ family _ seed, Ok (family, seed);
  Experiment.isinstance_OffPolicyAlgorithm := λ alg, alg.1;
  Experiment.spawn_replay_buffer := λ _ _ _, tt;
  Experiment.get_num_params := λ alg, {[ "policy_num_params" := alg.2 ]};
  Experiment.train := λ alg tc envs _ ts seed track m md buf py np,
    ((alg.1, alg.2 + 100), envs + 1, py + 1, np + 1,
     [(50, bundle0 (alg.1, alg.2 + 50) envs py np (metadata0 ts 50),
       {[ "mean_success_rate" := 40 ]})]);
  Experiment.get_checkpoint_restore_args := λ _ rb,
    (["agent"; "env_states"; "rngs"; "metadata"]
     ++ (if rb is Some _ then ["buffer"] else []))%list;
  Experiment.get_metadata_only_restore_args := ["metadata"];
  Experiment.get_last_agent_checkpoint_save_args := λ agent _,
    {| Experiment.ck_agent := Some agent; Experiment.ck_buffer := None;
       Experiment.ck_env_states := None; Experiment.ck_rngs := None;
       Experiment.ck_metadata := None |};
  Experiment.load_env_checkpoints := λ _ ck, ck;
  Experiment.cm_create := λ _ d, d;
  Experiment.cm_latest_step := λ _ d, latest_step0 d;
  Experiment.cm_restore := λ _ step names d, restore0 step names d;
  Experiment.cm_save := λ _ step b metrics d, Ok (d ++ [(step, b, metrics)])%list;
  Experiment.cm_wait_until_finished := λ _ d, d;
  Experiment.cm_best_step := λ m d, best_step0 (Experiment.best_fn m) d;
  Experiment.cm_get_save_directory := λ step dir, dir +:+ "/" +:+ pretty step;
  Experiment.cm_close := λ _ d, d;
|}.

(** [Experiment(exp_name="mt10", seed=1, data_dir="run_results", ...)],
    created at time 1800000000. *)
Definition experiment0 (family checkpoint resume : bool) : Experiment.Experiment X0 :=
  Experiment.__post_init__ 1800000000
    (@Experiment.Build_Experiment X0 "mt10" 1 "run_results" tt family (100, family)
       checkpoint 5 "mean_success_rate" resume false None EmptyString).

(** A checkpoint directory left by an earlier on-policy run started at time
    1700000000 and interrupted after step 7. *)
Definition disk_step7 : Disk0 :=
  [(7, bundle0 (false, 42) 11 5 6 (metadata0 "1700000000" 7),
    {[ "mean_success_rate" := 50 ]})].

(** The same, written by a run that recorded no timestamp. *)
Definition disk_no_timestamp : Disk0 :=
  [(7, bundle0 (false, 42) 11 5 6
        {| timestamp := None; step := Some 7; episodes_ended := Some 0 |},
    {[ "mean_success_rate" := 50 ]})].

(** A step whose metadata was stored as [None]. *)
Definition disk_null_metadata : Disk0 :=
  [(7, {| Experiment.ck_agent := Some (false, 42);
          Experiment.ck_buffer := None;
          Experiment.ck_env_states := Some 11;
          Experiment.ck_rngs :=
            Some {| python_rng_state := 5; global_numpy_rng_state := 6 |};
          Experiment.ck_metadata := Some None |},
    {[ "mean_success_rate" := 50 ]})].

(** A step that holds an agent and nothing else. *)
Definition disk_agent_only : Disk0 :=
  [(7, {| Experiment.ck_agent := Some (false, 42);
          Experiment.ck_buffer := None;
          Experiment.ck_env_states := None;
          Experiment.ck_rngs := None;
          Experiment.ck_metadata := None |},
    {[ "mean_success_rate" := 50 ]})].

(** The same experiment, with a metric for the best checkpoint that no save
    reports. *)
Definition experiment_unreported_metric : Experiment.Experiment X0 :=
  Experiment.__post_init__ 1800000000
    (@Experiment.Build_Experiment X0 "mt10" 1 "run_results" tt false (100, false)
       true 5 "mean_return" false false None EmptyString).

(** The same experiment, with the seed [-1]. *)
Definition experiment_negative_seed : Experiment.Experiment X0 :=
  Experiment.__post_init__ 1800000000
    (@Experiment.Build_Experiment X0 "mt10" (-1) "run_results" tt false (100, false)
       true 5 "mean_success_rate" false false None EmptyString).

(** The message of the [RuntimeError] jax raises for a backend that is not
    among the platforms present. *)
Definition unknown_backend (backend present : string) : string :=
  "Unknown backend: '" +:+ backend
  +:+ "' requested, but no platforms that are instances of " +:+ backend
  +:+ " are present. Platforms present are: " +:+ present.

(** A process with one GPU. *)
Definition process0 (e : Experiment.Experiment X0) (d : Disk0)
    : Experiment.State X0 :=
  @Experiment.Build_State X0 e (Experiment.Devices 1)
    (Experiment.NoBackend (unknown_backend "tpu" "cpu,cuda"))
    "[CudaDevice(id=0)]" 0 0 d None [].

(** The state a process is in once [enable_wandb] has returned. *)
Definition tracked (st : Experiment.State X0) : Experiment.State X0 :=
  Experiment.final_state (Experiment.enable_wandb st).

(** The manager [run] opens for an on-policy algorithm. *)
Definition manager0 : Experiment.CheckpointManager (Experiment.Path X0) :=
  {| Experiment.directory := "/work/run_results/mt10_1/checkpoints";
     Experiment.item_names := ["agent"; "env_states"; "rngs"; "metadata"];
     Experiment.max_to_keep := 5;
     Experiment.best_fn := "mean_success_rate" |}.

(** Locals that stand for "no result". *)
Definition no_locals : Experiment.Locals X0 :=
  @Experiment.Build_Locals X0 0 (false, 0) false None None None.

(** A process on a machine with eight TPU cores and no GPU. *)
Definition process_tpu (e : Experiment.Experiment X0) (d : Disk0)
    : Experiment.State X0 :=
  @Experiment.Build_State X0 e
    (Experiment.NoBackend (unknown_backend "gpu" "cpu,tpu"))
    (Experiment.Devices 8)
    "[TpuDevice(id=0)]" 0 0 d None [].

(** A process on a machine without accelerator. *)
Definition process_cpu (e : Experiment.Experiment X0) (d : Disk0)
    : Experiment.State X0 :=
  @Experiment.Build_State X0 e
    (Experiment.NoBackend (unknown_backend "gpu" "cpu"))
    (Experiment.NoBackend (unknown_backend "tpu" "cpu"))
    "[CpuDevice(id=0)]" 0 0 d None [].


End Fixture.

(** * Properties *)

(** ** The algorithm interface, on MTPPO *)

Module MTPPO_facts.
Import Types MTPPO.

Lemma bind_Ok {A B} (a : A) (k : A → PyResult B) : Ok a ≫= k = k a.
Proof. reflexivity. Qed.

Lemma bind_Err {A B} (e : PyError) (k : A → PyResult B) : Err e ≫= k = Err e.
Proof. reflexivity. Qed.

Lemma bind_ne {A B} (m : PyResult A) (k : A → PyResult B) (e : PyError) :
  m ≠ Err e → (∀ a, k a ≠ Err e) → m ≫= k ≠ Err e.
Proof.
  intros Hm Hk. destruct m as [a|e']; [apply Hk|].
  intros [= ->]. by apply Hm.
Qed.

Lemma bind_not_ok_l {A B} (m : PyResult A) (k : A → PyResult B) :
  is_ok m = false → is_ok (m ≫= k) = false.
Proof. destruct m; [discriminate | reflexivity]. Qed.


Lemma bind_is_ok {A B} (m : PyResult A) (k : A → PyResult B) (a : A) :
  m = Ok a → is_ok (k a) = true → is_ok (m ≫= k) = true.
Proof. intros -> Hk. exact Hk. Qed.

Section Facts.
Context {J : Backend}.

#[local] Abbreviation Array := (Array J).

Lemma py_assert_ne (c : bool) (msg : string) (e : PyError) :
  AssertionError msg ≠ e → py_assert c msg ≠ Err e.
Proof. intros Hne. destruct c; simpl; congruence. Qed.

Lemma operand_ne {A} (o : option A) (e : PyError) :
  e ≠ TypeError → operand o ≠ Err e.
Proof. intros Hne. destruct o; simpl; congruence. Qed.

Lemma assert_equal_shape_ne (a : Array) (b : option Array) :
  assert_equal_shape a b ≠ Err batch_kind_mismatch.
Proof. discriminate. Qed.

Lemma policy_loss_ne (self : MTPPO J) data k p :
  policy_loss self data k p ≠ Err batch_kind_mismatch.
Proof.
  unfold policy_loss. destruct (sample_and_log_prob J _ k) as [? new_log_probs].
  apply bind_ne; [by apply operand_ne|]. intros old.
  apply bind_ne.
  - destruct (normalize_advantages self); [|discriminate].
    apply bind_ne; [by apply operand_ne | discriminate].
  - intros adv. apply bind_ne; [by apply operand_ne | discriminate].
Qed.

Lemma value_function_loss_ne (self : MTPPO J) data p :
  value_function_loss self data p ≠ Err batch_kind_mismatch.
Proof.
  unfold value_function_loss.
  apply bind_ne; [apply assert_equal_shape_ne|]. intros _.
  apply bind_ne; [by apply py_assert_ne|]. intros _.
  apply bind_ne; [|discriminate].
  destruct (clip_vf_loss self).
  - apply bind_ne; [by apply operand_ne|]. intros rets.
    apply bind_ne; [by apply operand_ne | discriminate].
  - apply bind_ne; [by apply operand_ne | discriminate].
Qed.

Lemma value_and_grad_ne {Aux} (f : Params J → PyResult (Array * Aux)) p e :
  (∀ q, f q ≠ Err e) → value_and_grad f p ≠ Err e.
Proof. intros Hf. unfold value_and_grad. apply bind_ne; [apply Hf | discriminate]. Qed.

Lemma _update_inner_ne (self : MTPPO J) data :
  _update_inner self data ≠ Err batch_kind_mismatch.
Proof.
  unfold _update_inner. apply bind_ne.
  - unfold update_policy. destruct (split J (key self)) as [k pk].
    apply bind_ne.
    + apply value_and_grad_ne. intros q. apply policy_loss_ne.
    + intros [[? ?] ?]. discriminate.
  - intros [self1 policy_logs]. apply bind_ne.
    + unfold update_value_function. apply bind_ne.
      * apply value_and_grad_ne. intros q. apply value_function_loss_ne.
      * intros [[? ?] ?]. discriminate.
    + intros [self2 vf_logs]. discriminate.
Qed.

(** X1. [update] checks the three fields of a rollout in turn, [log_probs],
    [advantages], [returns]: the first one missing decides the message of the
    assertion error, and with all three recorded the result is that of
    [_update_inner]. *)
Lemma update_requires_recorded_fields (self : MTPPO J) (r : Rollout Array) :
  (log_probs r = None →
   update self (OfRollout r)
   = Err (AssertionError "Rollout policy log probs must have been recorded."))
  ∧ (is_Some (log_probs r) → advantages r = None →
     update self (OfRollout r) = Err (AssertionError "GAE must be enabled for MTPPO."))
  ∧ (is_Some (log_probs r) → is_Some (advantages r) → returns r = None →
     update self (OfRollout r)
     = Err (AssertionError "Returns must be computed for MTPPO."))
  ∧ (is_Some (log_probs r) → is_Some (advantages r) → is_Some (returns r) →
     update self (OfRollout r) = _update_inner self r).
Proof.
  unfold update.
  destruct (log_probs r), (advantages r), (returns r); simpl;
    repeat split; intros; try reflexivity;
    repeat match goal with
           | H : is_Some None |- _ => destruct H; discriminate
           | H : Some _ = None |- _ => discriminate H
           end.
Qed.

(** C5. For every MTPPO state, [update] on replay-buffer samples fails with
    the batch-kind error ("MTPPO does not support replay buffer samples."),
    and on a rollout it never fails with that error, whatever else it does. *)
Theorem update_batch_kind (self : MTPPO J) :
  (∀ s : ReplayBufferSamples Array,
     update self (OfReplayBufferSamples s) = Err batch_kind_mismatch)
  ∧ (∀ r : Rollout Array, update self (OfRollout r) ≠ Err batch_kind_mismatch).
Proof.
  split; [reflexivity|]. intros r. unfold update.
  do 3 (apply bind_ne; [by apply py_assert_ne | intros _]).
  apply _update_inner_ne.
Qed.


(** C8. [sample_action] returns the input state with a new [key] and every
    other field as it was; the action is the sample drawn, with the second
    half of the split key, from the policy's distribution at the
    observation. *)
Theorem sample_action_frame (self : MTPPO J) (observation : Array) :
  let out := sample_action self observation in
  out.1 = replace_key self (split J (key self)).1
  ∧ (num_tasks out.1 = num_tasks self
     ∧ policy out.1 = policy self
     ∧ value_function out.1 = value_function self
     ∧ gamma out.1 = gamma self
     ∧ clip_eps out.1 = clip_eps self
     ∧ clip_vf_loss out.1 = clip_vf_loss self
     ∧ entropy_coefficient out.1 = entropy_coefficient self
     ∧ vf_coefficient out.1 = vf_coefficient self
     ∧ normalize_advantages out.1 = normalize_advantages self)
  ∧ out.2
    = device_get J
        (sample J (apply_fn (policy self) (params (policy self)) observation)
           (split J (key self)).2).
Proof.
  unfold sample_action, _sample_action.
  destruct (split J (key self)) as [k action_key]. simpl. repeat split.
Qed.

(** C9. [eval_action] returns the mode of the policy's distribution and
    nothing else: no state comes back, the [key] is not read (any key gives
    the same actions), and the state [sample_action] leaves behind evaluates
    to the same actions as the state before it. *)
Theorem eval_action_pure (self : MTPPO J) (observations : Array) :
  eval_action self observations
  = device_get J
      (mode J (apply_fn (policy self) (params (policy self)) observations))
  ∧ (∀ k, eval_action (replace_key self k) observations
          = eval_action self observations)
  ∧ (∀ o, eval_action (sample_action self o).1 observations
          = eval_action self observations).
Proof.
  repeat split. intros o. unfold sample_action, _sample_action.
  destruct (split J (key self)). reflexivity.
Qed.

(** *** More on [update], its two halves and the sampling methods *)

Lemma apply_gradients_stepped {Out} (s : TrainState J Out) grads :
  stepped s (apply_gradients s grads).
Proof. unfold apply_gradients. by destruct (tx_update J _ _ _ _). Qed.

Lemma policy_loss_outcome (self : MTPPO J) data k p :
  match policy_loss self data k p with
  | Ok (_, logs) =>
      is_Some (log_probs data) ∧ is_Some (advantages data)
      ∧ dom logs = list_to_set policy_log_keys
  | Err e => e = TypeError ∧ (log_probs data = None ∨ advantages data = None)
  end.
Proof.
  unfold policy_loss. destruct (sample_and_log_prob J _ k) as [? new_log_probs].
  destruct (log_probs data) as [lp|]; simpl; [|by auto].
  destruct (advantages data) as [adv|]; simpl;
    [|destruct (normalize_advantages self); simpl; by auto].
  destruct (normalize_advantages self); simpl;
    (split; [by eexists|]; split; [by eexists|]);
    rewrite !dom_insert_L, dom_singleton_L; set_solver.
Qed.

(** What [update_policy] returns or raises. *)
Lemma update_policy_spec (self : MTPPO J) (data : Rollout Array) :
  match update_policy self data with
  | Ok (self', logs) =>
      is_Some (log_probs data) ∧ is_Some (advantages data)
      ∧ key self' = (split J (key self)).1
      ∧ stepped (policy self) (policy self')
      ∧ value_function self' = value_function self
      ∧ same_hyperparameters self' self
      ∧ dom logs = list_to_set policy_log_keys
  | Err e => e = TypeError ∧ (log_probs data = None ∨ advantages data = None)
  end.
Proof.
  unfold update_policy, value_and_grad.
  destruct (split J (key self)) as [k pk]. simpl.
  pose proof (policy_loss_outcome self data pk (params (policy self))) as H.
  destruct (policy_loss self data pk (params (policy self))) as [[loss logs]|e];
    simpl; [|exact H].
  destruct H as (Hlp & Hadv & Hdom).
  repeat split; try done; apply apply_gradients_stepped.
Qed.


(** The call of [chex.assert_equal_shape] stops [value_function_loss], and
    with it [update_value_function], on every input. *)
Lemma update_value_function_raises (self : MTPPO J) (data : Rollout Array) :
  (∀ p, value_function_loss self data p = Err TypeError)
  ∧ update_value_function self data = Err TypeError.
Proof. split; reflexivity. Qed.



(** X5. [sample_action_dist_and_value] leaves the agent in the state
    [sample_action] leaves it in, its mean is what [eval_action] returns, and
    its value is the value network at the observation. *)
Theorem sample_action_dist_and_value_agrees (self : MTPPO J) (observation : Array) :
  let '(self', action, log_prob, mean, std, value) :=
    sample_action_dist_and_value self observation in
  self' = (sample_action self observation).1
  ∧ mean = eval_action self observation
  ∧ value
    = device_get J
        (apply_fn (value_function self) (params (value_function self)) observation)
  ∧ (action, log_prob)
    = (let d := apply_fn (policy self) (params (policy self)) observation in
       let out := sample_and_log_prob J d (split J (key self)).2 in
       (device_get J out.1, device_get J out.2)).
Proof.
  unfold sample_action_dist_and_value, _sample_action_dist_and_value,
    sample_action, _sample_action, eval_action, _eval_action.
  destruct (split J (key self)) as [k action_key]. simpl.
  destruct (sample_and_log_prob J _ action_key) as [action log_prob]. done.
Qed.

(** X6. The parameter counts are reported under two names and do not change
    when actions are sampled; a policy update leaves the count of the value
    function as it was. *)
Theorem get_num_params_stable (self : MTPPO J) (observation : Array) :
  dom (get_num_params self) = {[ "policy_num_params"; "vf_num_params" ]}
  ∧ get_num_params (sample_action self observation).1 = get_num_params self
  ∧ get_num_params (sample_action_dist_and_value self observation).1.1.1.1.1
    = get_num_params self
  ∧ (∀ data, match update_policy self data with
             | Ok (self', _) =>
                 get_num_params self' !! "vf_num_params"
                 = get_num_params self !! "vf_num_params"
             | Err _ => True
             end).
Proof.
  split; [|split; [|split]].
  - unfold get_num_params. rewrite !dom_insert_L, dom_singleton_L. set_solver.
  - unfold sample_action, _sample_action. by destruct (split J (key self)).
  - unfold sample_action_dist_and_value, _sample_action_dist_and_value.
    destruct (split J (key self)). by destruct (sample_and_log_prob J _ _).
  - intros data. pose proof (update_policy_spec self data) as H.
    destruct (update_policy self data) as [[self' logs]|]; [|done].
    destruct H as (_ & _ & _ & _ & Hvf & _).
    unfold get_num_params. by rewrite Hvf.
Qed.

(** X7. [n] draws from a space give [n] samples, and drawing [n + m] is
    drawing [n] and then [m] from the generator as the first draws left it. *)
Theorem sample_n_draws (n m : nat) (b : BoxSpace J) :
  length (sample_n n b).1 = n
  ∧ sample_n (n + m) b
    = (let first := sample_n n b in
       let rest := sample_n m first.2 in
       (first.1 ++ rest.1, rest.2)).
Proof.
  revert b. induction n as [|n IH]; intros b; simpl.
  - split; [done|]. by destruct (sample_n m b).
  - destruct (box_sample J b) as [x b1]. destruct (IH b1) as [Hlen Happ].
    rewrite Happ. destruct (sample_n n b1) as [xs b2]. simpl in *.
    destruct (sample_n m b2) as [ys b3]. simpl. by rewrite Hlen.
Qed.

End Facts.

Import Fixture.



(** C10. On a rollout with every field recorded, [log_probs], [advantages]
    and [returns] among them, [update] gets through the policy update and
    then raises the [TypeError] of the call of [chex.assert_equal_shape]
    instead of returning. *)
Theorem update_raises_on_full_rollout :
  is_Some (log_probs full_rollout)
  ∧ is_Some (advantages full_rollout)
  ∧ is_Some (returns full_rollout)
  ∧ is_ok (update_policy mtppo0 full_rollout) = true
  ∧ update mtppo0 (OfRollout full_rollout) = Err TypeError.
Proof. repeat split; try by eexists. Qed.

End MTPPO_facts.

(** ** The run orchestrator *)

Module Experiment_facts.
Import Types Experiment.

Section Facts.
Context {X : Externals}.

#[local] Abbreviation State := (State X).
#[local] Abbreviation M := (M X).
#[local] Abbreviation Event := (Event X).

Lemma bind_Done {A B} (m : M A) (k : A → M B) st a st' :
  m st = Done a st' → (m ≫= k) st = k a st'.
Proof. intros H. unfold mbind, M_bind. by rewrite H. Qed.

Lemma bind_Raised {A B} (m : M A) (k : A → M B) st e st' :
  m st = Raised e st' → (m ≫= k) st = Raised e st'.
Proof. intros H. unfold mbind, M_bind. by rewrite H. Qed.

Lemma done_eq {A} (d : A) (o : Outcome X A) :
  is_done o = true → o = Done (value_or d o) (final_state o).
Proof. destruct o; [reflexivity | discriminate]. Qed.

(** The test of lines 95-98 reads the state and leaves it as it is. *)
Lemma check_accelerator_outcome (st : State) :
  check_accelerator st
  = if passes_accelerator_check st then Done tt st
    else Raised (accelerator_error st) st.
Proof.
  unfold check_accelerator, passes_accelerator_check, accelerator_error, device_count.
  unfold mbind, M_bind, get.
  destruct (gpu_count st) as [[|g]|]; simpl; [|reflexivity..].
  destruct (tpu_count st) as [[|t]|]; reflexivity.
Qed.

Lemma check_accelerator_Done (st : State) a st' :
  check_accelerator st = Done a st' → passes_accelerator_check st = true ∧ st' = st.
Proof.
  rewrite check_accelerator_outcome.
  destruct (passes_accelerator_check st); [by intros [= _ <-] | discriminate].
Qed.

Lemma no_accelerator_no_pass (st : State) :
  has_accelerator st = false → passes_accelerator_check st = false.
Proof.
  unfold has_accelerator, passes_accelerator_check.
  destruct (gpu_count st) as [[|g]|]; [|done..].
  by destruct (tpu_count st) as [[|t]|].
Qed.

Lemma raised_eq {A} (e : PyError) (o : Outcome X A) :
  error_of o = Some e → o = Raised e (final_state o).
Proof. destruct o; [discriminate | by intros [= ->]]. Qed.

Lemma elem_of_saved_steps (m : CheckpointManager (Path X)) at_step args metrics
    (evs : list Event) :
  EvSave m at_step args metrics ∈ evs → at_step ∈ saved_steps evs.
Proof.
  intros Hin. unfold saved_steps. apply list_elem_of_omap.
  by exists (EvSave m at_step args metrics).
Qed.

(** *** What a computation adds to the trace *)

Section Emits.
Context (P : Event → Prop).

Lemma emits_at_silent {A} (Q : A → Prop) (m : M A) st :
  trace (final_state (m st)) = trace st →
  (∀ a st', m st = Done a st' → Q a) →
  emits_at P Q m st.
Proof. intros Ht HQ. exists []. by rewrite Ht, app_nil_r. Qed.

Lemma emits_at_ret {A} (Q : A → Prop) (a : A) st : Q a → emits_at P Q (mret a) st.
Proof. intros HQ. apply emits_at_silent; [done|]. by intros ? ? [= <- _]. Qed.

Lemma emits_at_bind {A B} (Q : A → Prop) (R : B → Prop) (m : M A) (k : A → M B) st :
  emits_at P Q m st →
  (∀ a st', m st = Done a st' → Q a → emits_at P R (k a) st') →
  emits_at P R (m ≫= k) st.
Proof.
  intros (evs & Ht & HP & HQ) Hk. unfold emits_at, mbind, M_bind.
  destruct (m st) as [a st'|e st'] eqn:Hm; simpl in Ht.
  - destruct (Hk a st' eq_refl (HQ a st' eq_refl)) as (evs' & Ht' & HP' & HR).
    exists (evs ++ evs'). rewrite Ht', Ht, app_assoc.
    split; [done|]. split; [by apply Forall_app | done].
  - exists evs. split; [done|]. split; [done|]. by intros.
Qed.

Lemma emits_at_weaken {A} (Q Q' : A → Prop) (m : M A) st :
  (∀ a, Q a → Q' a) → emits_at P Q m st → emits_at P Q' m st.
Proof.
  intros HQ (evs & Ht & HP & Hm). exists evs. repeat split; [done..|]. eauto.
Qed.

Lemma emits_at_get st : emits_at P (λ s, s = st) get st.
Proof. apply emits_at_silent; [done|]. by intros ? ? [= <- _]. Qed.

Lemma emits_at_raise {A} (Q : A → Prop) e st : emits_at P Q (raise e) st.
Proof. by apply emits_at_silent. Qed.

Lemma emits_at_raise_bind {A B} (R : B → Prop) e (k : A → M B) st :
  emits_at P R (raise e ≫= k) st.
Proof. by apply emits_at_silent. Qed.

Lemma emits_at_lift {A} (r : PyResult A) st : emits_at P (λ a, r = Ok a) (lift r) st.
Proof.
  destruct r; [by apply emits_at_ret | apply emits_at_raise].
Qed.

Lemma emits_at_getitem {A} key (slot : option A) st :
  emits_at P (λ a, slot = Some a) (getitem key slot) st.
Proof. destruct slot; [by apply emits_at_ret | apply emits_at_raise]. Qed.

Lemma emits_at_assert_not_None {A} (x : option A) st :
  emits_at P (λ a, x = Some a) (assert_not_None x) st.
Proof. destruct x; [by apply emits_at_ret | apply emits_at_raise]. Qed.

Lemma emits_at_emit ev st : P ev → emits_at P (λ _, True) (emit ev) st.
Proof. intros HP. exists [ev]. split; [done|]. split; [by constructor | done]. Qed.

Lemma emits_at_with_self f st : emits_at P (λ _, True) (with_self f) st.
Proof. by apply emits_at_silent. Qed.

Lemma emits_at_with_py_rng s st : emits_at P (λ _, True) (with_py_rng s) st.
Proof. by apply emits_at_silent. Qed.

Lemma emits_at_with_np_rng s st : emits_at P (λ _, True) (with_np_rng s) st.
Proof. by apply emits_at_silent. Qed.

Lemma emits_at_with_disk d st : emits_at P (λ _, True) (with_disk d) st.
Proof. by apply emits_at_silent. Qed.

Lemma emits_at_with_wandb_run r st : emits_at P (λ _, True) (with_wandb_run r) st.
Proof. by apply emits_at_silent. Qed.

Lemma emits_at_check_accelerator st : emits_at P (λ _, True) check_accelerator st.
Proof.
  apply emits_at_silent; [|done]. rewrite check_accelerator_outcome.
  by destruct (passes_accelerator_check st).
Qed.

Lemma emits_at_latest_step m st : emits_at P (λ _, True) (latest_step m) st.
Proof. by apply emits_at_silent. Qed.

Lemma emits_at_best_step m st : emits_at P (λ _, True) (best_step m) st.
Proof. by apply emits_at_silent. Qed.

(** A bind whose first part promises nothing about its result. *)
Lemma emits_at_seq {A B} (Q : A → Prop) (R : B → Prop) (m : M A) (k : A → M B) st :
  emits_at P Q m st →
  (∀ a st', emits_at P R (k a) st') →
  emits_at P R (m ≫= k) st.
Proof. intros Hm Hk. eapply emits_at_bind; [exact Hm|]. intros; apply Hk. Qed.

Lemma emits_at_open m st :
  P (EvOpen m) → emits_at P (λ r, r = m) (CheckpointManager_open m) st.
Proof.
  intros HP. unfold CheckpointManager_open.
  eapply emits_at_seq; [by apply emits_at_emit|]. intros _ st1.
  eapply emits_at_seq; [apply emits_at_get|]. intros s st2.
  eapply emits_at_seq; [apply emits_at_with_disk|]. intros _ st3.
  by apply emits_at_ret.
Qed.

Lemma emits_at_restore m at_step args st :
  P (EvRestore m at_step args) → emits_at P (λ _, True) (restore m at_step args) st.
Proof.
  intros HP. unfold restore.
  eapply emits_at_seq; [by apply emits_at_emit|]. intros _ st1.
  eapply emits_at_seq; [apply emits_at_get|]. intros s st2.
  eapply emits_at_weaken; [|apply emits_at_lift]. done.
Qed.

Lemma emits_at_save m at_step args metrics st :
  P (EvSave m at_step args metrics) →
  emits_at P (λ _, True) (save m at_step args metrics) st.
Proof.
  intros HP. unfold save.
  eapply emits_at_seq; [by apply emits_at_emit|]. intros _ st1.
  eapply emits_at_seq; [apply emits_at_get|]. intros s st2.
  eapply emits_at_seq; [apply emits_at_lift|]. intros d st3.
  apply emits_at_with_disk.
Qed.

Lemma emits_at_wait_until_finished m st :
  P (EvWaitUntilFinished m) → emits_at P (λ _, True) (wait_until_finished m) st.
Proof.
  intros HP. unfold wait_until_finished.
  eapply emits_at_seq; [by apply emits_at_emit|]. intros _ st1.
  eapply emits_at_seq; [apply emits_at_get|]. intros s st2.
  apply emits_at_with_disk.
Qed.

Lemma emits_at_close m st : P (EvClose m) → emits_at P (λ _, True) (close m) st.
Proof.
  intros HP. unfold close.
  eapply emits_at_seq; [by apply emits_at_emit|]. intros _ st1.
  eapply emits_at_seq; [apply emits_at_get|]. intros s st2.
  apply emits_at_with_disk.
Qed.

Lemma emits_at_wandb_init dir id name st :
  P (EvWandbInit dir id name) → emits_at P (λ _, True) (wandb_init dir id name) st.
Proof.
  intros HP. unfold wandb_init.
  eapply emits_at_seq; [by apply emits_at_emit|]. intros _ st1.
  apply emits_at_with_wandb_run.
Qed.

Lemma emits_at_periodic_saves m saves st :
  (∀ m' at_step args metrics, m = Some m' → P (EvSave m' at_step args metrics)) →
  emits_at P (λ _, True) (periodic_saves m saves) st.
Proof.
  intros HP. revert st. induction saves as [|[[at_step args] metrics] rest IH]; intros st.
  - by apply emits_at_ret.
  - simpl. eapply emits_at_seq; [|intros _ st1; apply IH].
    destruct m as [m'|]; [by apply emits_at_save, HP | by apply emits_at_ret].
Qed.


End Emits.

(** A proof of [emits_at] by following the program: [ev_tac] proves that an
    emitted event is allowed, [done] that a returned value is. *)
Ltac emits_go ev_tac :=
  cbv beta zeta;
  lazymatch goal with
  | |- emits_at ?P ?R (assert_not_None (Some ?x) ≫= ?k) ?st =>
      change (emits_at P R (k x) st); emits_go ev_tac
  | |- emits_at _ _ (assert_not_None None ≫= _) _ => apply emits_at_raise_bind
  | |- emits_at _ _ (_ ≫= _) _ =>
      eapply (emits_at_seq _ (λ _, True));
      [emits_go ev_tac | intros ? ?; emits_go ev_tac]
  | |- emits_at _ _ (if ?b then _ else _) _ => destruct b; emits_go ev_tac
  | |- emits_at _ _ (match ?x with _ => _ end) _ => destruct x; emits_go ev_tac
  | |- emits_at _ _ (mret _) _ => apply emits_at_ret; simpl; done
  | |- emits_at _ _ (emit _) _ =>
      eapply emits_at_weaken; [|apply emits_at_emit; ev_tac]; done
  | |- emits_at _ _ (restore _ _ _) _ =>
      eapply emits_at_weaken; [|apply emits_at_restore; ev_tac]; done
  | |- emits_at _ _ (save _ _ _ _) _ =>
      eapply emits_at_weaken; [|apply emits_at_save; ev_tac]; done
  | |- emits_at _ _ (wait_until_finished _) _ =>
      eapply emits_at_weaken; [|apply emits_at_wait_until_finished; ev_tac]; done
  | |- emits_at _ _ (close _) _ =>
      eapply emits_at_weaken; [|apply emits_at_close; ev_tac]; done
  | |- emits_at _ _ (wandb_init _ _ _) _ =>
      eapply emits_at_weaken; [|apply emits_at_wandb_init; ev_tac]; done
  | |- emits_at _ _ (log_artifact _ _) _ =>
      eapply emits_at_weaken; [|apply emits_at_emit; ev_tac]; done
  | |- emits_at _ _ (periodic_saves _ _) _ =>
      eapply emits_at_weaken; [|apply emits_at_periodic_saves; intros; ev_tac]; done
  | |- emits_at _ _ get _ => eapply emits_at_weaken; [|apply emits_at_get]; done
  | |- emits_at _ _ (raise _) _ => apply emits_at_raise
  | |- emits_at _ _ (lift _) _ => eapply emits_at_weaken; [|apply emits_at_lift]; done
  | |- emits_at _ _ (getitem _ _) _ =>
      eapply emits_at_weaken; [|apply emits_at_getitem]; done
  | |- emits_at _ _ (assert_not_None _) _ =>
      eapply emits_at_weaken; [|apply emits_at_assert_not_None]; done
  | |- emits_at _ _ (with_self _) _ => apply emits_at_with_self
  | |- emits_at _ _ (with_py_rng _) _ => apply emits_at_with_py_rng
  | |- emits_at _ _ (with_np_rng _) _ => apply emits_at_with_np_rng
  | |- emits_at _ _ (with_disk _) _ => apply emits_at_with_disk
  | |- emits_at _ _ (latest_step _) _ => apply emits_at_latest_step
  | |- emits_at _ _ check_accelerator _ => apply emits_at_check_accelerator
  | |- emits_at _ _ (np_random_seed_call _) _ =>
      unfold np_random_seed_call; emits_go ev_tac
  | |- emits_at _ _ (wandb_config_update _) _ =>
      unfold wandb_config_update; emits_go ev_tac
  | |- emits_at _ _ (best_step _) _ => apply emits_at_best_step
  end.

(** An event that goes through a manager with the right slots, or through
    none, and is not the call of [train]. *)
Ltac setup_event_tac :=
  split; [reflexivity | intros ? [= <-]; assumption].

Lemma resume_from_emits slots (m : CheckpointManager (Path X)) latest envs0 alg b
    (st : State) :
  item_names m = slots →
  emits_at (setup_event slots) (λ l, checkpoint_manager l = Some m)
    (resume_from m latest envs0 alg b) st.
Proof. intros Hm. unfold resume_from. emits_go setup_event_tac. Qed.

Lemma lift_Done {A} (r : PyResult A) (a : A) (st st' : State) :
  lift r st = Done a st' → r = Ok a ∧ st' = st.
Proof. destruct r; simpl; [by intros [= -> ->] | discriminate]. Qed.

Lemma item_names_manager_for (e : Experiment X) items :
  item_names (manager_for e items) = items.
Proof. reflexivity. Qed.

(** Up to the call of [train], [run] goes through one manager, opened with
    the slots of the family, and hands on that manager, or none when
    checkpointing is off. *)
Lemma run_until_train_emits (st : State) :
  let slots := checkpoint_items (off_policy_run st) in
  emits_at (setup_event slots)
    (λ l, checkpoint_manager l
          = if checkpoint (self st) then Some (manager_for (self st) slots) else None)
    run_until_train st.
Proof.
  unfold run_until_train.
  eapply emits_at_bind; [apply emits_at_check_accelerator|].
  intros [] st0 [_ ->]%check_accelerator_Done _.
  eapply emits_at_bind; [apply emits_at_get|]. intros s st0 [= <- <-] _. simpl.
  eapply (emits_at_seq _ (λ _, True)); [emits_go setup_event_tac|]. intros _ st1.
  eapply (emits_at_seq _ (λ _, True)); [emits_go setup_event_tac|]. intros _ st2.
  eapply emits_at_bind; [apply emits_at_lift|]. intros alg st3 _ Halg.
  assert (off_policy_run st = isinstance_OffPolicyAlgorithm X alg) as ->.
  { unfold off_policy_run. by rewrite Halg. }
  set (slots := checkpoint_items _).
  set (Q := λ l : Locals X, checkpoint_manager l = _).
  do 3 (eapply (emits_at_seq _ (λ _, True)); [emits_go setup_event_tac|]; intros _ ?).
  eapply (emits_at_bind _ Q).
  - subst Q. destruct (checkpoint (self st)); [|emits_go setup_event_tac].
    eapply emits_at_bind.
    { apply emits_at_open. split; [reflexivity|]. by intros ? [= <-]. }
    intros cm st4 _ ->.
    eapply (emits_at_seq _ (λ _, True)); [emits_go setup_event_tac|].
    intros [latest|] st5.
    + by apply (resume_from_emits slots).
    + by apply emits_at_ret.
  - intros l st4 _ Hl.
    eapply (emits_at_seq _ (λ _, True)); [emits_go setup_event_tac|]. intros _ st5.
    by apply emits_at_ret.
Qed.













(** C7. Without a GPU device and without a TPU device, [run] raises a
    [RuntimeError] in the state it started in: nothing was spawned,
    initialised, seeded or opened, and no event was added to the trace.  The
    error is the one jax raises when it is asked to count the devices of a
    backend that is not there, and the error of line 96 when both backends
    are there and empty. *)
Theorem run_aborts_without_accelerator (st : State) :
  has_accelerator st = false →
  run st = Raised (accelerator_error st) st
  ∧ ∃ msg, accelerator_error st = RuntimeError msg.
Proof.
  intros Hnone. split.
  - unfold run, run_until_train. unfold mbind, M_bind.
    by rewrite check_accelerator_outcome, (no_accelerator_no_pass st Hnone).
  - unfold accelerator_error.
    destruct (gpu_count st); [destruct (tpu_count st)|]; by eexists.
Qed.

Ltac not_a_save := reflexivity.

(** X21. The manager [enable_wandb] opens to read the metadata, with the one
    slot ["metadata"], is never saved through: whether it returns or raises,
    [enable_wandb] adds no save to the trace. *)
Lemma enable_wandb_saves_nothing (st : State) :
  ∃ evs, trace (final_state (enable_wandb st)) = trace st ++ evs
         ∧ saved_steps evs = [].
Proof.
  assert (emits_at (λ ev, saved_steps [ev] = []) (λ _, True) enable_wandb st)
    as (evs & Ht & HP & _).
  { unfold enable_wandb, _get_latest_checkpoint_metadata, CheckpointManager_open.
    emits_go not_a_save. }
  exists evs. split; [done|]. clear Ht.
  induction HP as [|ev evs Hev _ IH]; [done|].
  change (ev :: evs) with ([ev] ++ evs). unfold saved_steps in *.
  by rewrite omap_app, Hev, IH.
Qed.

(** *** Resuming *)

(** C1. With checkpointing enabled, resume requested and a latest step [s]
    in the store, whenever [run] gets as far as calling [train] it does so on
    what the restore of step [s] returned: the agent, the environment states
    loaded into the environments, both generator states, the metadata, and
    the buffer exactly when the algorithm is off-policy. *)
Theorem resume_restores_everything (st : State) :
  checkpoint (self st) = true → resume_claim st.
Proof.
  intros Hck Hres alg s Hinit Hlatest l st1.
  unfold latest_checkpoint, run_manager in Hlatest.
  unfold restored_from, run_manager.
  unfold run_until_train, resume_from, CheckpointManager_open, latest_step, restore,
    np_random_seed_call, wandb_config_update.
  unfold mbind at 1, M_bind at 1. rewrite check_accelerator_outcome.
  destruct (passes_accelerator_check st); [|discriminate].
  unfold mbind, M_bind, get. simpl.
  rewrite Hinit. simpl.
  destruct (valid_np_seed (seed (self st))); simpl; [|discriminate].
  rewrite Hck. simpl. rewrite Hres. simpl.
  rewrite Hlatest. simpl.
  destruct (isinstance_OffPolicyAlgorithm X alg) eqn:Hoff; simpl.
  - destruct (isinstance_OffPolicyTrainingConfig X _); simpl; [|discriminate].
    destruct (cm_restore X _ _ _ _) as [ck|] eqn:Hr; simpl; [|discriminate].
    destruct (ck_agent ck) as [agent|] eqn:Hagent; simpl; [|discriminate].
    destruct (ck_buffer ck) as [buf|] eqn:Hbuf; simpl; [|discriminate].
    destruct (ck_env_states ck) as [es|] eqn:Hes; simpl; [|discriminate].
    destruct (ck_rngs ck) as [rngs|] eqn:Hrngs; simpl; [|discriminate].
    destruct (ck_metadata ck) as [[md|]|] eqn:Hmd; simpl; [|discriminate..].
    destruct (step md) as [loaded|]; simpl; [|discriminate].
    destruct (_wandb_enabled (self st)); simpl;
      [destruct (wandb_run st); simpl; [|discriminate]|];
      intros [= <- <-]; simpl;
      exists ck, es, rngs, md; repeat split; try done; by exists buf.
  - destruct (cm_restore X _ _ _ _) as [ck|] eqn:Hr; simpl; [|discriminate].
    destruct (ck_agent ck) as [agent|] eqn:Hagent; simpl; [|discriminate].
    destruct (ck_env_states ck) as [es|] eqn:Hes; simpl; [|discriminate].
    destruct (ck_rngs ck) as [rngs|] eqn:Hrngs; simpl; [|discriminate].
    destruct (ck_metadata ck) as [[md|]|] eqn:Hmd; simpl; [|discriminate..].
    destruct (step md) as [loaded|]; simpl; [|discriminate].
    destruct (_wandb_enabled (self st)); simpl;
      [destruct (wandb_run st); simpl; [|discriminate]|];
      intros [= <- <-]; simpl;
      exists ck, es, rngs, md; repeat split; done.
Qed.

(** X20. When the part of [run] before training raises, [run] raises the same
    error in the same state, and [train] has not been called. *)
Lemma run_stops_where_setup_stops (st : State) e st1 :
  run_until_train st = Raised e st1 →
  run st = Raised e st1
  ∧ ∃ evs, trace st1 = trace st ++ evs ∧ Forall (λ ev, is_train ev = false) evs.
Proof.
  intros Hraise. split.
  - unfold run. by apply bind_Raised.
  - destruct (run_until_train_emits st) as (evs & Ht & HP & _).
    rewrite Hraise in Ht. exists evs. split; [done|].
    eapply Forall_impl; [exact HP|]. by intros ev [? _].
Qed.

(** *** What [run] leaves alone in the experiment *)

Lemma keeps_ret {A} (a : A) : keeps_config (mret a : M A).
Proof. by intros st a' st' [= _ <-]. Qed.

Lemma keeps_bind {A B} (m : M A) (k : A → M B) :
  keeps_config m → (∀ a, keeps_config (k a)) → keeps_config (m ≫= k).
Proof.
  intros Hm Hk st b st2. unfold mbind, M_bind.
  destruct (m st) as [a st1|] eqn:Hst; [|discriminate].
  intros Hb. rewrite (Hk a _ _ _ Hb). by eapply Hm.
Qed.

Lemma keeps_get : keeps_config (get (X := X)).
Proof. by intros st a st' [= _ <-]. Qed.

Lemma keeps_raise {A} e : keeps_config (raise e : M A).
Proof. intros st a st'. discriminate. Qed.

Lemma keeps_lift {A} (r : PyResult A) : keeps_config (lift r : M A).
Proof. destruct r; [apply keeps_ret | apply keeps_raise]. Qed.

Lemma keeps_getitem {A} key (slot : option A) : keeps_config (getitem key slot : M A).
Proof. destruct slot; [apply keeps_ret | apply keeps_raise]. Qed.

Lemma keeps_assert_not_None {A} (x : option A) :
  keeps_config (assert_not_None x : M A).
Proof. destruct x; [apply keeps_ret | apply keeps_raise]. Qed.

Lemma keeps_emit ev : keeps_config (emit (X := X) ev).
Proof. intros st a st'. inversion 1. reflexivity. Qed.

Lemma keeps_with_py_rng s : keeps_config (with_py_rng (X := X) s).
Proof. intros st a st'. inversion 1. reflexivity. Qed.

Lemma keeps_with_np_rng s : keeps_config (with_np_rng (X := X) s).
Proof. intros st a st'. inversion 1. reflexivity. Qed.

Lemma keeps_with_disk d : keeps_config (with_disk (X := X) d).
Proof. intros st a st'. inversion 1. reflexivity. Qed.

Lemma keeps_with_wandb_run r : keeps_config (with_wandb_run (X := X) r).
Proof. intros st a st'. inversion 1. reflexivity. Qed.

Lemma keeps_set_timestamp (t : Experiment X → string) :
  keeps_config (with_self (λ e, set_timestamp (t e) e)).
Proof. intros st a st'. inversion 1. reflexivity. Qed.

Create HintDb keeps.
#[local] Hint Resolve keeps_ret keeps_get keeps_raise keeps_lift keeps_getitem
  keeps_assert_not_None keeps_emit keeps_with_py_rng keeps_with_np_rng
  keeps_with_disk keeps_with_wandb_run keeps_set_timestamp : keeps.

Ltac keeps_go :=
  cbv beta zeta;
  lazymatch goal with
  | |- keeps_config (_ ≫= _) => apply keeps_bind; [keeps_go | intros ?; keeps_go]
  | |- keeps_config (if ?b then _ else _) => destruct b; keeps_go
  | |- keeps_config (match ?x with _ => _ end) => destruct x; keeps_go
  | |- keeps_config _ => solve [auto with keeps]
  end.

Lemma keeps_save m at_step args metrics :
  keeps_config (save (X := X) m at_step args metrics).
Proof. unfold save. keeps_go. Qed.

Lemma keeps_periodic_saves m saves : keeps_config (periodic_saves (X := X) m saves).
Proof.
  induction saves as [|[[at_step args] metrics] rest IH]; simpl; [apply keeps_ret|].
  apply keeps_bind; [|by intros _].
  destruct m; [apply keeps_save | apply keeps_ret].
Qed.

#[local] Hint Resolve keeps_save keeps_periodic_saves : keeps.

Lemma keeps_run_until_train : keeps_config (run_until_train (X := X)).
Proof.
  unfold run_until_train, check_accelerator, device_count, np_random_seed_call,
    wandb_config_update, resume_from, CheckpointManager_open, latest_step, restore.
  keeps_go.
Qed.

Lemma keeps_call_train l : keeps_config (call_train (X := X) l).
Proof. unfold call_train. keeps_go. Qed.

Lemma config_fields (e e' : Experiment X) :
  config e' = config e →
  checkpoint e' = checkpoint e
  ∧ _wandb_enabled e' = _wandb_enabled e
  ∧ env e' = env e
  ∧ training_config e' = training_config e.
Proof. unfold config, set_timestamp. intros [= ]. done. Qed.

(** *** Finalizing *)

(** C3. With checkpointing and tracking both enabled, once the training loop
    has returned, [run] evaluates the agent, saves step [total_steps + 1]
    with the evaluation metrics as metrics, waits until the store has
    finished, and only then logs two artifacts, the directory of the final
    step and then the directory of the best step, before it closes the
    manager; nothing else happens after training. *)
Theorem final_checkpoint_then_artifacts (st : State) l st1 agent envs' st2 d id b :
  checkpoint (self st) = true →
  _wandb_enabled (self st) = true →
  run_until_train st = Done l st1 →
  call_train l st1 = Done (agent, envs') st2 →
  let e := self st in
  let m := manager_for e (checkpoint_items (off_policy_run st)) in
  let last := total_steps X (training_config e) + 1 in
  let metrics :=
    let '(mean_success_rate, mean_returns, mean_success_per_task) :=
      evaluate X (env e) envs' agent in
    final_metrics mean_success_rate mean_returns mean_success_per_task in
  let args := get_last_agent_checkpoint_save_args X agent metrics in
  cm_save X m last args metrics (disk st2) = Ok d →
  wandb_run st2 = Some id →
  cm_best_step X m (cm_wait_until_finished X m d) = Some b →
  ∃ st3,
    run st = Done tt st3
    ∧ trace st3
      = trace st2
        ++ [ EvEvaluate agent;
             EvSave m last args metrics;
             EvWaitUntilFinished m;
             EvLogArtifact (id +:+ "_final_agent_checkpoint")
               (path_str X (cm_get_save_directory X last (directory m)));
             EvLogArtifact (id +:+ "_best_agent_checkpoint")
               (path_str X (cm_get_save_directory X b (directory m)));
             EvClose m ]
    ∧ disk st3 = cm_close X m (cm_wait_until_finished X m d).
Proof.
  intros Hck Hw Hsetup Htrain e m last metrics args Hsave Hid Hbest.
  destruct (config_fields (self st) (self st1) (keeps_run_until_train _ _ _ Hsetup))
    as (Hck1 & Hw1 & Henv1 & Htc1).
  destruct (config_fields (self st1) (self st2) (keeps_call_train l _ _ _ Htrain))
    as (Hck2 & Hw2 & Henv2 & Htc2).
  destruct (run_until_train_emits st) as (_ & _ & _ & Hl).
  specialize (Hl _ _ Hsetup). rewrite Hck in Hl. fold e m in Hl.
  unfold run. rewrite (bind_Done _ _ _ _ _ Hsetup), (bind_Done _ _ _ _ _ Htrain).
  unfold cleanup, save, wait_until_finished, best_step, close, log_artifact.
  unfold mbind, M_bind, get. simpl.
  rewrite Hw2, Hw1, Hw, Hck2, Hck1, Hck, Henv2, Henv1, Htc2, Htc1. simpl.
  subst metrics args last. fold e.
  destruct (evaluate X (env e) envs' agent) as [[mean_success_rate mean_returns] per_task].
  rewrite Hl. simpl. rewrite Hsave. simpl. rewrite Hid. simpl. rewrite Hbest. simpl.
  eexists. split; [reflexivity|]. split; [|reflexivity]. simpl.
  by rewrite <- !app_assoc.
Qed.

(** *** The tracking id *)

Lemma probe_keeps_self (st : State) r st' :
  _get_latest_checkpoint_metadata st = Done r st' → self st' = self st.
Proof.
  unfold _get_latest_checkpoint_metadata, CheckpointManager_open, latest_step, restore.
  unfold mbind, M_bind, get. simpl.
  destruct (cm_latest_step X _ _); simpl; [|by intros [= _ <-]].
  destruct (cm_restore X _ _ _ _) as [ck|]; simpl; [|discriminate].
  destruct (ck_metadata ck); simpl; [by intros [= _ <-] | discriminate].
Qed.

Lemma post_init_timestamp (now : Z) (e : Experiment X) :
  _timestamp (__post_init__ now e) = pretty now
  ∧ _wandb_enabled (__post_init__ now e) = false
  ∧ _wandb_run_id (__post_init__ now e) = None.
Proof. done. Qed.

(** C2. Once the latest metadata has been read, [enable_wandb] returns with
    the derived id stored in the experiment and handed to the tracking
    service.  The id depends on the resume flag and on the metadata found in
    the checkpoint directory, and not on whether checkpointing is on.  With
    resume requested and metadata that holds a non-empty timestamp [T] the id
    is [T_name_seed] and nothing is printed; with resume requested and
    metadata that holds no timestamp, or an empty one, the id is [name_seed]
    and the warning is printed first; with no metadata found, or resume not
    requested, the id is [t_name_seed] for the timestamp [t] taken when the
    experiment was created. *)
Theorem tracking_id_derivation (st : State) latest st1 :
  (with_self (set_wandb_enabled true);; _get_latest_checkpoint_metadata) st
  = Done latest st1 →
  let e := self st in
  let init id := EvWandbInit (path_str X (_get_data_dir e)) id (exp_name e) in
  ∃ id st2,
    enable_wandb st = Done tt st2
    ∧ _wandb_run_id (self st2) = Some id
    ∧ wandb_run st2 = Some id
    ∧ (∀ md T, latest = Some md → resume e = true →
               timestamp md = Some T → T ≠ EmptyString →
               id = T +:+ "_" +:+ name_seed e
               ∧ trace st2 = trace st1 ++ [init id])
    ∧ (∀ md, latest = Some md → resume e = true →
             timestamp md = None ∨ timestamp md = Some EmptyString →
             id = name_seed e
             ∧ trace st2 = trace st1 ++ [EvPrint no_timestamp_warning; init id])
    ∧ (latest = None ∨ resume e = false →
       id = _timestamp e +:+ "_" +:+ name_seed e
       ∧ trace st2 = trace st1 ++ [init id]).
Proof.
  intros Hprobe e init.
  unfold mbind, M_bind, with_self in Hprobe. simpl in Hprobe.
  pose proof (probe_keeps_self _ _ _ Hprobe) as Hself. simpl in Hself.
  unfold enable_wandb. unfold mbind at 1, M_bind at 1, with_self at 1. simpl.
  rewrite (bind_Done _ _ _ _ _ Hprobe).
  unfold wandb_init, mbind, M_bind, get. simpl. rewrite Hself. simpl. fold e.
  destruct latest as [md|]; simpl;
    [destruct (resume e) eqn:Hres; simpl;
       [destruct (timestamp md) as [[|c T]|] eqn:Hts; simpl|]|];
    (eexists _, _; split; [reflexivity|]; simpl; repeat split; intros;
     repeat match goal with H : _ ∨ _ |- _ => destruct H end;
     simplify_eq; rewrite <- ?app_assoc; done).
Qed.

(** *** Runs without checkpointing, fresh starts and failed resumes *)

Lemma periodic_saves_None saves (st : State) : periodic_saves None saves st = Done tt st.
Proof.
  induction saves as [|[[at_step args] metrics] rest IH]; [done|].
  simpl. unfold mbind, M_bind. simpl. exact IH.
Qed.

(** X8. With checkpointing off, [run] returns whenever it gets past its own
    checks: the accelerator test lets it go on, the seed is one
    [np.random.seed] accepts, a tracked run has an active tracking run, and
    the algorithm initialises.  It spawns, initialises and seeds, reports the
    number of parameters when tracking is on, calls [train] without a manager
    and does nothing afterwards; the store, the experiment and the tracking
    run are as they were. *)
Theorem run_without_checkpointing (st : State) alg :
  passes_accelerator_check st = true →
  valid_np_seed (seed (self st)) = true →
  tracking_ready st = true →
  checkpoint (self st) = false →
  initialize X (algorithm (self st)) (env (self st)) (seed (self st)) = Ok alg →
  ∃ st3,
    run st = Done tt st3
    ∧ self st3 = self st
    ∧ disk st3 = disk st
    ∧ wandb_run st3 = wandb_run st
    ∧ trace st3
      = trace st ++ seeding_events (self st) ++ tracking_events (self st) alg
        ++ [EvTrain alg None].
Proof.
  intros Hacc Hseed Htrack Hck Hinit.
  unfold run, run_until_train, call_train, cleanup, tracking_events, seeding_events,
    np_random_seed_call, wandb_config_update.
  unfold mbind, M_bind. rewrite check_accelerator_outcome, Hacc.
  unfold get. simpl.
  rewrite Hinit. simpl. rewrite Hseed. simpl. rewrite Hck. simpl.
  unfold tracking_ready in Htrack.
  destruct (_wandb_enabled (self st)) eqn:Hw, (wandb_run st) as [id|] eqn:Hid;
    try discriminate Htrack; simpl;
    destruct (train X _ _ _ _ _ _ _ _ _ _ _ _) as [[[[agent envs'] py] np] saves];
    simpl; rewrite periodic_saves_None; simpl; rewrite ?Hw, ?Hck; simpl;
    (eexists; split; [reflexivity|]); simpl; repeat split;
    rewrite <- ?app_assoc; try done; by destruct st.
Qed.

(** X9. With checkpointing on, a run that gets past its own checks (as in X8)
    and is not resumed, or finds no step in the store, reaches [train] with
    the freshly initialised algorithm and the freshly spawned environments,
    both generators seeded from the seed, no buffer checkpoint and no
    metadata; it has opened the manager and restored nothing. *)
Theorem fresh_start_restores_nothing (st : State) alg :
  passes_accelerator_check st = true →
  valid_np_seed (seed (self st)) = true →
  tracking_ready st = true →
  checkpoint (self st) = true →
  initialize X (algorithm (self st)) (env (self st)) (seed (self st)) = Ok alg →
  resume (self st) = false ∨ latest_checkpoint st alg = None →
  let e := self st in
  let m := run_manager st alg in
  ∃ st1,
    run_until_train st
    = Done {| envs := spawn X (env e) (seed e); the_algorithm := alg;
              is_off_policy := isinstance_OffPolicyAlgorithm X alg;
              buffer_checkpoint := None; checkpoint_manager := Some m;
              checkpoint_metadata := None |} st1
    ∧ self st1 = e
    ∧ py_rng st1 = random_seed X (seed e)
    ∧ np_rng st1 = np_random_seed X (seed e)
    ∧ disk st1 = cm_create X m (disk st)
    ∧ trace st1
      = trace st ++ seeding_events e ++ [EvOpen m] ++ tracking_events e alg.
Proof.
  intros Hacc Hseed Htrack Hck Hinit Hfresh e m.
  unfold latest_checkpoint in Hfresh. fold m in Hfresh. subst e.
  unfold run_until_train, CheckpointManager_open, latest_step, tracking_events,
    seeding_events, np_random_seed_call, wandb_config_update.
  unfold mbind, M_bind. rewrite check_accelerator_outcome, Hacc.
  unfold get. simpl.
  rewrite Hinit. simpl. rewrite Hseed. simpl. rewrite Hck. simpl.
  fold (run_manager st alg). fold m.
  assert (resume (self st) = false
          ∨ resume (self st) = true
            ∧ cm_latest_step X m (cm_create X m (disk st)) = None)
    as [Hres|[Hres Hnone]].
  { destruct (resume (self st)); destruct Hfresh; auto. }
  all: rewrite Hres; simpl; rewrite ?Hnone; simpl.
  all: unfold tracking_ready in Htrack.
  all: destruct (_wandb_enabled (self st)), (wandb_run st) as [id|];
    try discriminate Htrack; simpl;
    (eexists; split; [reflexivity|]); simpl; repeat split;
    rewrite <- ?app_assoc; done.
Qed.

(** X10. What a resumed run that gets past its own checks (as in X8) does with
    the restore of the latest step.  An off-policy algorithm with a training
    configuration that is not off-policy fails the assertion once the manager
    is open and before anything is restored.  Otherwise an error of the
    restore is the error of [run]; a bundle that lacks a slot raises the
    [KeyError] of the first missing one, in the order agent, buffer (for an
    off-policy algorithm), environment states, generators, metadata; metadata
    stored as [None] fails the assertion, metadata without a step raises
    [KeyError]; and in every other case the run goes on to [train]. *)
Theorem resume_outcome (st : State) alg s :
  passes_accelerator_check st = true →
  valid_np_seed (seed (self st)) = true →
  tracking_ready st = true →
  checkpoint (self st) = true →
  resume (self st) = true →
  initialize X (algorithm (self st)) (env (self st)) (seed (self st)) = Ok alg →
  latest_checkpoint st alg = Some s →
  let m := run_manager st alg in
  let off := isinstance_OffPolicyAlgorithm X alg in
  if off && negb (isinstance_OffPolicyTrainingConfig X (training_config (self st)))
  then
    ∃ st1, run st = Raised (AssertionError EmptyString) st1
           ∧ trace st1 = trace st ++ seeding_events (self st) ++ [EvOpen m]
  else
    match cm_restore X m s (resume_restore_args st alg) (cm_create X m (disk st)) with
    | Err e => raises run st e
    | Ok ck =>
        match resume_error off ck with
        | Some e => raises run st e
        | None => ∃ l st1, run_until_train st = Done l st1
        end
    end.
Proof.
  intros Hacc Hseed Htrack Hck Hres Hinit Hlatest m off.
  unfold latest_checkpoint in Hlatest. fold m in Hlatest.
  unfold raises, run, resume_restore_args, resume_error, seeding_events.
  unfold run_until_train, resume_from, CheckpointManager_open, latest_step, restore,
    np_random_seed_call, wandb_config_update.
  unfold mbind, M_bind. rewrite check_accelerator_outcome, Hacc.
  unfold get. simpl.
  rewrite Hinit. simpl. rewrite Hseed. simpl.
  rewrite Hck. simpl. rewrite Hres. simpl.
  fold (run_manager st alg). fold m. rewrite Hlatest. simpl. fold off.
  unfold tracking_ready in Htrack.
  destruct off; simpl.
  - destruct (isinstance_OffPolicyTrainingConfig X _); simpl.
    + destruct (cm_restore X _ _ _ _) as [ck|]; simpl; [|eauto].
      destruct (ck_agent ck); simpl; [|eauto].
      destruct (ck_buffer ck); simpl; [|eauto].
      destruct (ck_env_states ck); simpl; [|eauto].
      destruct (ck_rngs ck); simpl; [|eauto].
      destruct (ck_metadata ck) as [[md|]|]; simpl; [|eauto..].
      destruct (step md); simpl; [|eauto].
      destruct (_wandb_enabled (self st)), (wandb_run st);
        try discriminate Htrack; simpl; eauto.
    + eexists. split; [reflexivity|]. simpl. by rewrite <- !app_assoc.
  - destruct (cm_restore X _ _ _ _) as [ck|]; simpl; [|eauto].
    destruct (ck_agent ck); simpl; [|eauto].
    destruct (ck_env_states ck); simpl; [|eauto].
    destruct (ck_rngs ck); simpl; [|eauto].
    destruct (ck_metadata ck) as [[md|]|]; simpl; [|eauto..].
    destruct (step md); simpl; [|eauto].
    destruct (_wandb_enabled (self st)), (wandb_run st);
      try discriminate Htrack; simpl; eauto.
Qed.

(** X11. A resumed run that reaches [train] has taken over the timestamp of
    the restored metadata, or kept its own when the metadata has none, has
    printed the step it loaded, and has read the store without writing to
    it; the rest of the experiment is as it was. *)
Theorem resume_adopts_timestamp (st : State) alg s l st1 :
  checkpoint (self st) = true →
  resume (self st) = true →
  initialize X (algorithm (self st)) (env (self st)) (seed (self st)) = Ok alg →
  latest_checkpoint st alg = Some s →
  run_until_train st = Done l st1 →
  ∃ md n,
    checkpoint_metadata l = Some md
    ∧ step md = Some n
    ∧ self st1 = set_timestamp (default (_timestamp (self st)) (timestamp md)) (self st)
    ∧ EvPrint ("Loaded checkpoint at step " +:+ pretty n) ∈ trace st1
    ∧ disk st1 = cm_create X (run_manager st alg) (disk st).
Proof.
  intros Hck Hres Hinit Hlatest.
  unfold latest_checkpoint, run_manager in Hlatest. unfold run_manager.
  unfold run_until_train, resume_from, CheckpointManager_open, latest_step, restore,
    np_random_seed_call, wandb_config_update.
  unfold mbind at 1, M_bind at 1. rewrite check_accelerator_outcome.
  destruct (passes_accelerator_check st); [|discriminate].
  unfold mbind, M_bind, get. simpl.
  rewrite Hinit. simpl.
  destruct (valid_np_seed (seed (self st))); simpl; [|discriminate].
  rewrite Hck. simpl. rewrite Hres. simpl.
  rewrite Hlatest. simpl.
  destruct (isinstance_OffPolicyAlgorithm X alg); simpl.
  - destruct (isinstance_OffPolicyTrainingConfig X _); simpl; [|discriminate].
    destruct (cm_restore X _ _ _ _) as [ck|]; simpl; [|discriminate].
    destruct (ck_agent ck); simpl; [|discriminate].
    destruct (ck_buffer ck); simpl; [|discriminate].
    destruct (ck_env_states ck); simpl; [|discriminate].
    destruct (ck_rngs ck); simpl; [|discriminate].
    destruct (ck_metadata ck) as [[md|]|]; simpl; [|discriminate..].
    destruct (step md) as [n|] eqn:Hn; simpl; [|discriminate].
    destruct (_wandb_enabled (self st)); simpl;
      [destruct (wandb_run st); simpl; [|discriminate]|];
      intros [= <- <-]; simpl;
      exists md, n; repeat split; try done;
      repeat (apply elem_of_app;
              first [right; apply list_elem_of_singleton; reflexivity | left]).
  - destruct (cm_restore X _ _ _ _) as [ck|]; simpl; [|discriminate].
    destruct (ck_agent ck); simpl; [|discriminate].
    destruct (ck_env_states ck); simpl; [|discriminate].
    destruct (ck_rngs ck); simpl; [|discriminate].
    destruct (ck_metadata ck) as [[md|]|]; simpl; [|discriminate..].
    destruct (step md) as [n|] eqn:Hn; simpl; [|discriminate].
    destruct (_wandb_enabled (self st)); simpl;
      [destruct (wandb_run st); simpl; [|discriminate]|];
      intros [= <- <-]; simpl;
      exists md, n; repeat split; try done;
      repeat (apply elem_of_app;
              first [right; apply list_elem_of_singleton; reflexivity | left]).
Qed.

(** *** After training *)

(** X12. Unless checkpointing and tracking are both on, nothing is evaluated,
    saved or published once [train] has returned: a run with checkpointing
    only closes its manager, a run without checkpointing ends in the state
    [train] left. *)
Theorem cleanup_only_closes (st : State) l st1 agent envs' st2 :
  _wandb_enabled (self st) && checkpoint (self st) = false →
  run_until_train st = Done l st1 →
  call_train l st1 = Done (agent, envs') st2 →
  ∃ st3,
    run st = Done tt st3
    ∧ if checkpoint (self st) then
        let m := manager_for (self st) (checkpoint_items (off_policy_run st)) in
        trace st3 = trace st2 ++ [EvClose m]
        ∧ disk st3 = cm_close X m (disk st2)
      else st3 = st2.
Proof.
  intros Hoff Hsetup Htrain.
  destruct (config_fields (self st) (self st1) (keeps_run_until_train _ _ _ Hsetup))
    as (Hck1 & Hw1 & _).
  destruct (config_fields (self st1) (self st2) (keeps_call_train l _ _ _ Htrain))
    as (Hck2 & Hw2 & _).
  destruct (run_until_train_emits st) as (_ & _ & _ & Hl).
  specialize (Hl _ _ Hsetup).
  unfold run. rewrite (bind_Done _ _ _ _ _ Hsetup), (bind_Done _ _ _ _ _ Htrain).
  unfold cleanup, close. unfold mbind, M_bind, get. simpl.
  rewrite Hw2, Hw1, Hck2, Hck1, Hl.
  destruct (checkpoint (self st)); simpl.
  - rewrite andb_true_r in Hoff. rewrite Hoff. simpl.
    eexists. split; [reflexivity|]. done.
  - exists st2. split; [|done]. by destruct (_wandb_enabled (self st)).
Qed.

(** *** The one call of [train] *)

Ltac not_train_tac := reflexivity.

Lemma emit_then {A} (P : Event → Prop) (Q : A → Prop) ev (k : M A) (st : State) :
  (∀ st', emits_at P Q k st') →
  ∃ evs, trace (final_state ((emit ev;; k) st)) = trace st ++ ev :: evs ∧ Forall P evs.
Proof.
  intros Hk. unfold mbind, M_bind, emit.
  match goal with |- context [k ?s] => destruct (Hk s) as (evs & Ht & HP & _) end.
  exists evs. rewrite Ht. simpl. by rewrite <- app_assoc.
Qed.

Lemma call_train_trace (l : Locals X) (st : State) :
  ∃ evs, trace (final_state (call_train l st))
         = trace st ++ EvTrain (the_algorithm l) (checkpoint_manager l) :: evs
         ∧ Forall not_train evs.
Proof.
  unfold call_train. unfold mbind at 1, M_bind at 1, get.
  apply (emit_then not_train (λ _, True)). intros st'. emits_go not_train_tac.
Qed.

Lemma cleanup_trace (l : Locals X) agent envs' (st : State) :
  ∃ evs, trace (final_state (cleanup l agent envs' st)) = trace st ++ evs
         ∧ Forall not_train evs.
Proof.
  assert (emits_at not_train (λ _, True) (cleanup l agent envs') st)
    as (evs & Ht & HP & _); [|by exists evs].
  unfold cleanup. destruct (checkpoint_manager l); emits_go not_train_tac.
Qed.

(** X14. [run] calls [train] at most once, and exactly once when it returns;
    the call is handed the manager of the run when checkpointing is on and no
    manager when it is off. *)
Theorem train_called_once (st : State) :
  let handed :=
    if checkpoint (self st)
    then Some (manager_for (self st) (checkpoint_items (off_policy_run st)))
    else None in
  ∃ evs,
    trace (final_state (run st)) = trace st ++ evs
    ∧ (Forall not_train evs ∧ is_done (run st) = false
       ∨ ∃ before alg after,
           evs = before ++ EvTrain alg handed :: after
           ∧ Forall not_train before
           ∧ Forall not_train after).
Proof.
  intros handed.
  destruct (run_until_train_emits st) as (evs1 & Ht1 & HP1 & Hl).
  assert (Forall not_train evs1) as HP1'.
  { eapply Forall_impl; [exact HP1|]. by intros ev [? _]. }
  unfold run.
  destruct (run_until_train st) as [l st1|e st1] eqn:Hsetup; simpl in Ht1.
  - specialize (Hl _ _ eq_refl). fold handed in Hl.
    rewrite (bind_Done _ _ _ _ _ Hsetup).
    destruct (call_train_trace l st1) as (evs2 & Ht2 & HP2). rewrite Hl in Ht2.
    destruct (call_train l st1) as [[agent envs'] st2|e st2] eqn:Htrain;
      simpl in Ht2.
    + rewrite (bind_Done _ _ _ _ _ Htrain).
      destruct (cleanup_trace l agent envs' st2) as (evs3 & Ht3 & HP3).
      exists (evs1 ++ EvTrain (the_algorithm l) handed :: evs2 ++ evs3).
      split.
      * rewrite Ht3, Ht2, Ht1. by rewrite <- !app_assoc.
      * right. exists evs1, (the_algorithm l), (evs2 ++ evs3).
        split; [done|]. split; [done|]. by apply Forall_app.
    + rewrite (bind_Raised _ _ _ _ _ Htrain). simpl.
      exists (evs1 ++ EvTrain (the_algorithm l) handed :: evs2).
      split; [rewrite Ht2, Ht1; by rewrite <- !app_assoc|].
      right. by exists evs1, (the_algorithm l), evs2.
  - rewrite (bind_Raised _ _ _ _ _ Hsetup). simpl.
    exists evs1. split; [done|]. by left.
Qed.

(** *** What [run] never writes *)

Section Preserves.
Context {B : Type} (f : State → B).

Lemma preserves_ret {A} (a : A) : preserves f (mret a : M A).
Proof. by intros st. Qed.

Lemma preserves_bind {A C} (m : M A) (k : A → M C) :
  preserves f m → (∀ a, preserves f (k a)) → preserves f (m ≫= k).
Proof.
  intros Hm Hk st. unfold mbind, M_bind. specialize (Hm st).
  destruct (m st) as [a st1|e st1]; simpl in *; [|done].
  by rewrite (Hk a st1).
Qed.

Lemma preserves_get : preserves f (get (X := X)).
Proof. by intros st. Qed.

Lemma preserves_raise {A} e : preserves f (raise e : M A).
Proof. by intros st. Qed.

Lemma preserves_lift {A} (r : PyResult A) : preserves f (lift r : M A).
Proof. destruct r; [apply preserves_ret | apply preserves_raise]. Qed.

Lemma preserves_getitem {A} key (slot : option A) : preserves f (getitem key slot : M A).
Proof. destruct slot; [apply preserves_ret | apply preserves_raise]. Qed.

Lemma preserves_assert_not_None {A} (x : option A) :
  preserves f (assert_not_None x : M A).
Proof. destruct x; [apply preserves_ret | apply preserves_raise]. Qed.

End Preserves.

Lemma run_frame_emit ev : preserves run_frame (emit (X := X) ev).
Proof. by intros st. Qed.

Lemma run_frame_with_py_rng s : preserves run_frame (with_py_rng (X := X) s).
Proof. by intros st. Qed.

Lemma run_frame_with_np_rng s : preserves run_frame (with_np_rng (X := X) s).
Proof. by intros st. Qed.

Lemma run_frame_with_disk d : preserves run_frame (with_disk (X := X) d).
Proof. by intros st. Qed.

Lemma run_frame_set_timestamp (t : Experiment X → string) :
  preserves run_frame (with_self (λ e, set_timestamp (t e) e)).
Proof. by intros st. Qed.

Create HintDb run_frame.
#[local] Hint Resolve preserves_ret preserves_get preserves_raise preserves_lift
  preserves_getitem preserves_assert_not_None run_frame_emit run_frame_with_py_rng
  run_frame_with_np_rng run_frame_with_disk run_frame_set_timestamp : run_frame.

Ltac run_frame_go :=
  cbv beta zeta;
  lazymatch goal with
  | |- preserves _ (_ ≫= _) =>
      apply preserves_bind; [run_frame_go | intros ?; run_frame_go]
  | |- preserves _ (if ?b then _ else _) => destruct b; run_frame_go
  | |- preserves _ (match ?x with _ => _ end) => destruct x; run_frame_go
  | |- preserves _ _ => solve [auto with run_frame]
  end.

Lemma run_frame_save m at_step args metrics :
  preserves run_frame (save (X := X) m at_step args metrics).
Proof. unfold save. run_frame_go. Qed.

Lemma run_frame_periodic_saves m saves :
  preserves run_frame (periodic_saves (X := X) m saves).
Proof.
  induction saves as [|[[at_step args] metrics] rest IH]; simpl;
    [apply preserves_ret|].
  apply preserves_bind; [|by intros _].
  destruct m; [apply run_frame_save | apply preserves_ret].
Qed.

#[local] Hint Resolve run_frame_save run_frame_periodic_saves : run_frame.

(** X15. Whether it returns or raises, [run] leaves the experiment as it
    found it but for the timestamp, and never touches the active tracking
    run: the only attribute it assigns is [_timestamp], on a resume. *)
Theorem run_preserves_frame : preserves run_frame (run (X := X)).
Proof.
  unfold run, run_until_train, check_accelerator, device_count,
    np_random_seed_call, wandb_config_update, resume_from, call_train, cleanup,
    CheckpointManager_open, latest_step, restore, wait_until_finished, best_step,
    close, log_artifact.
  run_frame_go.
Qed.

(** *** Finalizing, when it fails *)

Lemma bind_Done_inv {A B} (m : M A) (k : A → M B) (st : State) b st2 :
  (m ≫= k) st = Done b st2 → ∃ a st1, m st = Done a st1 ∧ k a st1 = Done b st2.
Proof. unfold mbind, M_bind. destruct (m st) as [a st1|]; [eauto | discriminate]. Qed.

(** A tracked run that reaches [train] has an active tracking run: the
    report of the number of parameters went through. *)
Lemma run_until_train_tracked (st : State) l st1 :
  _wandb_enabled (self st) = true →
  run_until_train st = Done l st1 →
  ∃ id, wandb_run st1 = Some id.
Proof.
  intros Hw H. unfold run_until_train in H.
  apply bind_Done_inv in H as ([] & s0 & [_ ->]%check_accelerator_Done & H).
  unfold mbind at 1, M_bind at 1, get at 1 in H. cbv beta iota zeta in H.
  do 7 (apply bind_Done_inv in H as (? & ? & _ & H)).
  rewrite Hw in H.
  apply bind_Done_inv in H as ([] & s8 & Ht & H).
  unfold wandb_config_update, mbind, M_bind, get in Ht.
  destruct (wandb_run _) as [id|] eqn:Hid; [|discriminate].
  injection Ht as <-. injection H as _ <-. simpl. eauto.
Qed.

Lemma call_train_preserves_frame (l : Locals X) :
  preserves run_frame (call_train (X := X) l).
Proof. unfold call_train. run_frame_go. Qed.

(** X13. How finalizing fails once [train] has returned on a tracked run with
    checkpointing.  The run still has the active tracking run it reported its
    parameters to, so the assertion of line 205 holds.  An error of the final
    save is the error of [run], and nothing is waited for, published or
    closed.  Without a best step the assertion of line 217 fails after the
    final checkpoint has been published, and the manager is left open. *)
Theorem finalizing_failures (st : State) l st1 agent envs' st2 :
  checkpoint (self st) = true →
  _wandb_enabled (self st) = true →
  run_until_train st = Done l st1 →
  call_train l st1 = Done (agent, envs') st2 →
  let e := self st in
  let m := manager_for e (checkpoint_items (off_policy_run st)) in
  let last := total_steps X (training_config e) + 1 in
  let metrics :=
    let '(mean_success_rate, mean_returns, mean_success_per_task) :=
      evaluate X (env e) envs' agent in
    final_metrics mean_success_rate mean_returns mean_success_per_task in
  let args := get_last_agent_checkpoint_save_args X agent metrics in
  let saved := [EvEvaluate agent; EvSave m last args metrics] in
  ∃ id,
    wandb_run st2 = Some id
    ∧ match cm_save X m last args metrics (disk st2) with
      | Err err =>
          ∃ st3, run st = Raised err st3
                 ∧ trace st3 = trace st2 ++ saved
                 ∧ disk st3 = disk st2
      | Ok d =>
          cm_best_step X m (cm_wait_until_finished X m d) = None →
          ∃ st3, run st = Raised (AssertionError EmptyString) st3
                 ∧ trace st3
                   = trace st2 ++ saved
                     ++ [EvWaitUntilFinished m;
                         EvLogArtifact (id +:+ "_final_agent_checkpoint")
                           (path_str X (cm_get_save_directory X last (directory m)))]
      end.
Proof.
  intros Hck Hw Hsetup Htrain e m last metrics args saved.
  destruct (run_until_train_tracked st l st1 Hw Hsetup) as [id Hid].
  pose proof (call_train_preserves_frame l st1) as Hframe.
  rewrite Htrain in Hframe. apply (f_equal snd) in Hframe as Hrun.
  simpl in Hrun. rewrite Hid in Hrun. exists id. split; [exact Hrun|].
  destruct (config_fields (self st) (self st1) (keeps_run_until_train _ _ _ Hsetup))
    as (Hck1 & Hw1 & Henv1 & Htc1).
  destruct (config_fields (self st1) (self st2) (keeps_call_train l _ _ _ Htrain))
    as (Hck2 & Hw2 & Henv2 & Htc2).
  destruct (run_until_train_emits st) as (_ & _ & _ & Hl).
  specialize (Hl _ _ Hsetup). rewrite Hck in Hl. fold e m in Hl.
  unfold run. rewrite (bind_Done _ _ _ _ _ Hsetup), (bind_Done _ _ _ _ _ Htrain).
  unfold cleanup, save, wait_until_finished, best_step, close, log_artifact.
  unfold mbind, M_bind, get. simpl.
  rewrite Hw2, Hw1, Hw, Hck2, Hck1, Hck, Henv2, Henv1, Htc2, Htc1. simpl.
  subst saved metrics args last. fold e.
  destruct (evaluate X (env e) envs' agent) as [[mean_success_rate mean_returns] per_task].
  rewrite Hl. simpl.
  destruct (cm_save X m _ _ _ _) as [d|err]; simpl.
  - rewrite Hrun. simpl. intros ->. simpl. eexists. split; [reflexivity|]. simpl.
    by rewrite <- !app_assoc.
  - eexists. split; [reflexivity|]. simpl. by rewrite <- !app_assoc.
Qed.

(** *** Where the setup stops a run *)

(** X22. A machine with TPUs and no GPU backend is refused: counting the GPU
    devices raises before the TPU devices are counted, and [run] stops on
    that error in the state it started in. *)
Theorem tpu_only_machine_refused (st : State) msg n :
  gpu_count st = NoBackend msg →
  tpu_count st = Devices (S n) →
  has_accelerator st = true
  ∧ run st = Raised (RuntimeError msg) st.
Proof.
  intros Hgpu Htpu. split.
  - unfold has_accelerator. by rewrite Hgpu, Htpu.
  - unfold run, run_until_train. unfold mbind, M_bind.
    rewrite check_accelerator_outcome.
    unfold passes_accelerator_check, accelerator_error. by rewrite Hgpu.
Qed.

(** X23. A seed [np.random.seed] does not accept stops the run once the
    environments are spawned, the algorithm is initialised and the Python
    generator is seeded: the numpy generator is as it was, and no manager is
    opened. *)
Theorem seed_out_of_range_stops_run (st : State) alg :
  passes_accelerator_check st = true →
  valid_np_seed (seed (self st)) = false →
  initialize X (algorithm (self st)) (env (self st)) (seed (self st)) = Ok alg →
  ∃ st1,
    run st = Raised seed_out_of_range st1
    ∧ trace st1 = trace st ++ seeding_events (self st)
    ∧ py_rng st1 = random_seed X (seed (self st))
    ∧ np_rng st1 = np_rng st
    ∧ disk st1 = disk st.
Proof.
  intros Hacc Hseed Hinit.
  unfold run, run_until_train, np_random_seed_call, seeding_events.
  unfold mbind, M_bind. rewrite check_accelerator_outcome, Hacc.
  unfold get. simpl. rewrite Hinit. simpl. rewrite Hseed. simpl.
  eexists. split; [reflexivity|]. simpl. by rewrite <- !app_assoc.
Qed.

Lemma setup_preserves_frame : preserves run_frame (run_until_train (X := X)).
Proof.
  unfold run_until_train, check_accelerator, device_count, np_random_seed_call,
    wandb_config_update, resume_from, CheckpointManager_open, latest_step, restore.
  run_frame_go.
Qed.

(** X24. A run marked as tracked without an active tracking run never gets
    to [train]: whatever else happens before, the report of the number of
    parameters raises.  On a fresh start that gets past the seeding, the
    error of [run] is that of [wandb.config.update]. *)
Theorem tracked_run_needs_wandb_init (st : State) :
  _wandb_enabled (self st) = true →
  wandb_run st = None →
  is_done (run st) = false
  ∧ (∃ evs, trace (final_state (run st)) = trace st ++ evs ∧ Forall not_train evs)
  ∧ ∀ alg,
      passes_accelerator_check st = true →
      valid_np_seed (seed (self st)) = true →
      initialize X (algorithm (self st)) (env (self st)) (seed (self st)) = Ok alg →
      checkpoint (self st) = false ∨ resume (self st) = false
      ∨ latest_checkpoint st alg = None →
      raises run st wandb_not_initialised.
Proof.
  intros Hw Hnone.
  assert (∃ e st1, run_until_train st = Raised e st1) as (e & st1 & Hraise).
  { destruct (run_until_train st) as [l st1|e st1] eqn:Hsetup; [|by eauto].
    destruct (run_until_train_tracked st l st1 Hw Hsetup) as [id Hid].
    pose proof (setup_preserves_frame st) as Hframe. rewrite Hsetup in Hframe.
    apply (f_equal snd) in Hframe. simpl in Hframe. congruence. }
  split; [|split].
  - unfold run. by rewrite (bind_Raised _ _ _ _ _ Hraise).
  - unfold run. rewrite (bind_Raised _ _ _ _ _ Hraise).
    destruct (run_until_train_emits st) as (evs & Ht & HP & _).
    rewrite Hraise in Ht. exists evs. split; [exact Ht|].
    eapply Forall_impl; [exact HP|]. by intros ev [? _].
  - intros alg Hacc Hseed Hinit Hfresh. clear e st1 Hraise.
    unfold latest_checkpoint, run_manager in Hfresh.
    unfold raises, run, run_until_train, CheckpointManager_open, latest_step,
      np_random_seed_call, wandb_config_update, wandb_not_initialised.
    unfold mbind, M_bind. rewrite check_accelerator_outcome, Hacc.
    unfold get. simpl. rewrite Hinit. simpl. rewrite Hseed. simpl.
    rewrite Hw.
    destruct (checkpoint (self st)) eqn:Hck; simpl;
      [|rewrite Hnone; simpl; by eauto].
    destruct (resume (self st)) eqn:Hres; simpl;
      [|rewrite Hnone; simpl; by eauto].
    destruct Hfresh as [?|[?|Hlatest]]; [discriminate..|].
    rewrite Hlatest. simpl. rewrite Hnone. simpl. by eauto.
Qed.

(** *** Reading the latest metadata *)

(** X16. [_get_latest_checkpoint_metadata] opens a manager with the single
    slot ["metadata"] on the checkpoint directory of the run.  On a store
    without a step it returns [None] and restores nothing; otherwise it
    restores the latest step with the metadata-only arguments and returns the
    metadata of the bundle, raises the error of the restore, or raises
    [KeyError] when the bundle has no metadata.  The experiment is left as it
    was. *)
Theorem latest_metadata_outcome (st : State) :
  let mm := manager_for (self st) ["metadata"] in
  let d := cm_create X mm (disk st) in
  let o := _get_latest_checkpoint_metadata st in
  self (final_state o) = self st
  ∧ disk (final_state o) = d
  ∧ match cm_latest_step X mm d with
    | None => error_of o = None ∧ value_or None o = None
              ∧ trace (final_state o) = trace st ++ [EvOpen mm]
    | Some s =>
        trace (final_state o)
        = trace st ++ [EvOpen mm; EvRestore mm s (get_metadata_only_restore_args X)]
        ∧ match cm_restore X mm s (get_metadata_only_restore_args X) d with
          | Err e => error_of o = Some e
          | Ok ck =>
              match ck_metadata ck with
              | Some md => ∃ st', o = Done md st'
              | None => error_of o = Some (KeyError "metadata")
              end
          end
    end.
Proof.
  intros mm d o. subst o.
  unfold _get_latest_checkpoint_metadata, CheckpointManager_open, latest_step, restore.
  unfold mbind, M_bind, get. simpl. fold mm d.
  destruct (cm_latest_step X mm d) as [s|]; simpl; [|done].
  destruct (cm_restore X mm s _ d) as [ck|e]; simpl.
  - destruct (ck_metadata ck) as [md|]; simpl; rewrite <- ?app_assoc; eauto.
  - by rewrite <- app_assoc.
Qed.

(** X17. When reading the latest metadata raises, [enable_wandb] raises the
    same error: the tracking service is never initialised and no run id is
    stored, but the experiment is already marked as tracked. *)
Theorem enable_wandb_failure (st : State) e st1 :
  (with_self (set_wandb_enabled true);; _get_latest_checkpoint_metadata) st
  = Raised e st1 →
  enable_wandb st = Raised e st1
  ∧ self st1 = set_wandb_enabled true (self st)
  ∧ wandb_run st1 = wandb_run st
  ∧ ∃ evs, trace st1 = trace st ++ evs ∧ Forall (λ ev, is_wandb_init ev = false) evs.
Proof.
  intros Hprobe. split.
  { unfold enable_wandb. unfold mbind at 1, M_bind at 1, with_self at 1. simpl.
    unfold mbind, M_bind, with_self in Hprobe. simpl in Hprobe.
    by rewrite (bind_Raised _ _ _ _ _ Hprobe). }
  revert Hprobe.
  unfold _get_latest_checkpoint_metadata, CheckpointManager_open, latest_step, restore.
  unfold mbind, M_bind, get, with_self. simpl.
  destruct (cm_latest_step X _ _) as [s|]; simpl; [|discriminate].
  destruct (cm_restore X _ s _ _) as [ck|err]; simpl.
  - destruct (ck_metadata ck); simpl; [discriminate|].
    intros [= <- <-]. simpl. repeat split.
    eexists [_; _]. split; [by rewrite <- app_assoc|]. by repeat constructor.
  - intros [= <- <-]. simpl. repeat split.
    eexists [_; _]. split; [by rewrite <- app_assoc|]. by repeat constructor.
Qed.

(** *** Names and metrics *)

Lemma string_length_app (s1 s2 : string) :
  String.length (s1 +:+ s2) = (String.length s1 + String.length s2)%nat.
Proof. induction s1 as [|c s1 IH]; simpl; [done|]. by rewrite IH. Qed.

Lemma string_app_inj_l (s s1 s2 : string) : s1 +:+ s = s2 +:+ s → s1 = s2.
Proof.
  revert s2. induction s1 as [|c s1 IH]; intros [|c2 s2] H; simpl in H.
  - done.
  - apply (f_equal String.length) in H.
    rewrite ?string_length_app in H. simpl in H. rewrite ?string_length_app in H. lia.
  - apply (f_equal String.length) in H.
    rewrite ?string_length_app in H. simpl in H. rewrite ?string_length_app in H. lia.
  - injection H as -> H. f_equal. by apply IH.
Qed.

(** X18. Two experiments of the same name share the directory name and the
    id suffix [name_seed] only if they have the same seed. *)
Theorem name_seed_inj (e e' : Experiment X) :
  exp_name e = exp_name e' → name_seed e = name_seed e' → seed e = seed e'.
Proof.
  unfold name_seed. intros -> H.
  apply (inj (String.app (exp_name e'))) in H.
  apply (inj (String.app "_")) in H.
  by apply (inj pretty) in H.
Qed.

Lemma per_task_lookup (per : gmap string (float X)) (t : string) :
  map_fold (λ task_name success_rate (acc : gmap string (float X)),
              <[task_name +:+ "_success_rate" := success_rate]> acc) ∅ per
  !! (t +:+ "_success_rate")
  = per !! t.
Proof.
  revert t.
  apply (map_fold_weak_ind
           (λ (r m : gmap string (float X)), ∀ t, r !! (t +:+ "_success_rate") = m !! t)).
  - intros t. by rewrite !lookup_empty.
  - intros i x m r Hi IH t. destruct (decide (i = t)) as [->|Hne].
    + by rewrite !lookup_insert_eq.
    + rewrite !lookup_insert_ne; [apply IH | done |].
      intros H. by apply string_app_inj_l in H.
Qed.

Lemma per_task_keys (per : gmap string (float X)) (k : string) :
  is_Some (map_fold (λ task_name success_rate (acc : gmap string (float X)),
                       <[task_name +:+ "_success_rate" := success_rate]> acc) ∅ per
           !! k) →
  ∃ t, k = t +:+ "_success_rate".
Proof.
  apply (map_fold_weak_ind
           (λ (r m : gmap string (float X)),
              is_Some (r !! k) → ∃ t, k = t +:+ "_success_rate")).
  - rewrite lookup_empty. by intros [? ?].
  - intros i x m r _ IH. destruct (decide (i +:+ "_success_rate" = k)) as [<-|Hne].
    + by exists i.
    + by rewrite lookup_insert_ne.
Qed.

Lemma not_a_success_rate (t : string) :
  t +:+ "_success_rate" ≠ "mean_evaluation_return".
Proof.
  intros H.
  do 23 (destruct t as [|? t]; [by simplify_eq/=|]).
  by simplify_eq/=.
Qed.

(** X19. The metrics of the final checkpoint.  The mean evaluation return is
    always there under its own key.  Under [t_success_rate] stands the rate
    of task [t] whenever the evaluation reports one, which for a task named
    [mean] replaces the overall success rate; the overall rate stands under
    [mean_success_rate] otherwise, and no other key of this form is set. *)
Theorem final_metrics_lookup (mean_success_rate mean_returns : float X)
    (per : gmap string (float X)) :
  final_metrics mean_success_rate mean_returns per !! "mean_evaluation_return"
  = Some mean_returns
  ∧ ∀ t,
      final_metrics mean_success_rate mean_returns per !! (t +:+ "_success_rate")
      = match per !! t with
        | Some rate => Some rate
        | None => if decide (t = "mean") then Some mean_success_rate else None
        end.
Proof.
  unfold final_metrics. split.
  - apply lookup_union_Some_raw. right. split; [|done].
    apply eq_None_not_Some. intros [t Ht]%per_task_keys.
    by apply (not_a_success_rate t).
  - intros t. rewrite lookup_union, per_task_lookup.
    destruct (per !! t) as [rate|]; simpl.
    + by destruct (_ !! _).
    + rewrite (left_id None _). destruct (decide (t = "mean")) as [->|Hne]; [done|].
      rewrite lookup_insert_ne.
      * rewrite lookup_singleton_ne; [done|]. intros H. symmetry in H.
        by apply not_a_success_rate in H.
      * change "mean_success_rate" with ("mean" +:+ "_success_rate").
        intros H. by apply string_app_inj_l in H.
Qed.

End Facts.

(** *** On the concrete collaborators *)

Import Fixture.

(** Closes [lhs = rhs] for a closed [lhs] with a small value, unknowns of
    [rhs] included, by evaluating [lhs]. *)
Ltac by_evaluation :=
  lazymatch goal with
  | |- ?lhs = _ =>
      let v := eval vm_compute in lhs in
      transitivity v; [vm_compute; reflexivity | reflexivity]
  end.

(** Replaces a closed [lhs] of the hypothesis [H : lhs = _] by its value. *)
Ltac evaluate_in H :=
  lazymatch type of H with
  | ?lhs = _ =>
      let v := eval vm_compute in lhs in
      let E := fresh "E" in
      assert (lhs = v) as E by (vm_compute; reflexivity);
      rewrite E in H; clear E
  end.

(** A computation that returns, written with its own result. *)
Ltac by_running := apply done_eq; vm_compute; reflexivity.

(** On a machine with CPUs only, jax has no GPU backend to count. *)
Lemma run_aborts_without_accelerator_witness :
  run (process_cpu (experiment0 false true false) [])
  = Raised (RuntimeError (unknown_backend "gpu" "cpu"))
      (process_cpu (experiment0 false true false) []).
Proof.
  destruct (run_aborts_without_accelerator (X := X0)
              (process_cpu (experiment0 false true false) []) eq_refl)
    as [Hrun _].
  exact Hrun.
Defined.


(** A resumed on-policy run over [disk_step7] trains the stored agent
    [(false, 42)] on the stored environment and generator states. *)
Lemma resume_restores_everything_witness :
  ∃ l st1,
    run_until_train (process0 (experiment0 false true true) disk_step7) = Done l st1
    ∧ restored_from (process0 (experiment0 false true true) disk_step7) (false, 1) 7 l st1
    ∧ the_algorithm l = (false, 42)
    ∧ envs l = 11
    ∧ py_rng st1 = 5
    ∧ np_rng st1 = 6.
Proof.
  set (st := process0 (experiment0 false true true) disk_step7).
  exists (value_or no_locals (run_until_train st)), (final_state (run_until_train st)).
  split; [by_running|]. split; [|repeat split; vm_compute; reflexivity].
  apply (resume_restores_everything (X := X0) st);
    [by_evaluation | by_evaluation | by_evaluation | by_evaluation | by_running].
Defined.

(** C1, as worded, fails: with checkpointing off, resume on and step 7 in
    the store, [run] goes on to train the freshly initialised agent. *)
Lemma resume_claim_fails_without_checkpointing :
  ¬ resume_claim (process0 (experiment0 false false true) disk_step7).
Proof.
  set (st := process0 (experiment0 false false true) disk_step7).
  intros H.
  edestruct (H eq_refl (false, 1) 7 eq_refl eq_refl
               (value_or no_locals (run_until_train st))
               (final_state (run_until_train st)))
    as (ck & es & rngs & md & Hr & Hagent & _); [by_running|].
  evaluate_in Hr. injection Hr as <-.
  assert (the_algorithm (value_or no_locals (run_until_train st)) = (false, 1)) as E
    by (vm_compute; reflexivity).
  rewrite E in Hagent. discriminate Hagent.
Qed.

Lemma tracking_id_derivation_witness :
  (∃ st2, enable_wandb (process0 (experiment0 false true true) disk_step7) = Done tt st2
          ∧ _wandb_run_id (self st2) = Some "1700000000_mt10_1")
  ∧ (∃ st2, enable_wandb (process0 (experiment0 false true true) disk_no_timestamp)
            = Done tt st2
            ∧ _wandb_run_id (self st2) = Some "mt10_1"
            ∧ EvPrint no_timestamp_warning ∈ trace st2)
  ∧ (∃ st2, enable_wandb (process0 (experiment0 false true false) disk_step7) = Done tt st2
            ∧ _wandb_run_id (self st2) = Some "1800000000_mt10_1")
  ∧ (∃ st2, enable_wandb (process0 (experiment0 false false true) disk_step7) = Done tt st2
            ∧ _wandb_run_id (self st2) = Some "1700000000_mt10_1").
Proof.
  split; [|split; [|split]].
  - set (st := process0 (experiment0 false true true) disk_step7).
    set (o := (with_self (set_wandb_enabled true);; _get_latest_checkpoint_metadata) st).
    destruct (tracking_id_derivation (X := X0) st (value_or None o) (final_state o))
      as (id & st2 & Hrun & Hid & _ & Hresumed & _); [by_running|].
    exists st2. split; [exact Hrun|]. rewrite Hid. f_equal.
    destruct (Hresumed (metadata0 "1700000000" 7) "1700000000") as [-> _];
      [by_evaluation | by_evaluation | reflexivity | discriminate |].
    vm_compute; reflexivity.
  - set (st := process0 (experiment0 false true true) disk_no_timestamp).
    set (o := (with_self (set_wandb_enabled true);; _get_latest_checkpoint_metadata) st).
    destruct (tracking_id_derivation (X := X0) st (value_or None o) (final_state o))
      as (id & st2 & Hrun & Hid & _ & _ & Hbare & _); [by_running|].
    exists st2. split; [exact Hrun|].
    edestruct Hbare as [-> ->];
      [by_evaluation | by_evaluation | left; reflexivity |].
    split; [rewrite Hid; f_equal; vm_compute; reflexivity|].
    apply elem_of_app. right. by left.
  - set (st := process0 (experiment0 false true false) disk_step7).
    set (o := (with_self (set_wandb_enabled true);; _get_latest_checkpoint_metadata) st).
    destruct (tracking_id_derivation (X := X0) st (value_or None o) (final_state o))
      as (id & st2 & Hrun & Hid & _ & _ & _ & Hfresh); [by_running|].
    exists st2. split; [exact Hrun|]. rewrite Hid. f_equal.
    destruct Hfresh as [-> _]; [right; by_evaluation|].
    vm_compute; reflexivity.
  - set (st := process0 (experiment0 false false true) disk_step7).
    set (o := (with_self (set_wandb_enabled true);; _get_latest_checkpoint_metadata) st).
    destruct (tracking_id_derivation (X := X0) st (value_or None o) (final_state o))
      as (id & st2 & Hrun & Hid & _ & Hresumed & _); [by_running|].
    exists st2. split; [exact Hrun|]. rewrite Hid. f_equal.
    destruct (Hresumed (metadata0 "1700000000" 7) "1700000000") as [-> _];
      [by_evaluation | by_evaluation | reflexivity | discriminate |].
    vm_compute; reflexivity.
Defined.

(** C2, as worded, fails: with checkpointing off and resume on, [run] does
    not look at the store and trains the freshly initialised agent, yet the id
    [enable_wandb] derived before is the one of step 7 found there. *)
Lemma fresh_run_id_claim_fails_without_checkpointing :
  ¬ fresh_run_id_claim (process0 (experiment0 false false true) disk_step7).
Proof.
  set (st := process0 (experiment0 false false true) disk_step7).
  set (o := enable_wandb st).
  set (o1 := run_until_train (final_state o)).
  intros H.
  specialize (H (final_state o) (value_or no_locals o1) (final_state o1)).
  assert (_wandb_run_id (self (final_state o)) = Some "1700000000_mt10_1") as E
    by (vm_compute; reflexivity).
  rewrite E in H.
  assert (Some "1700000000_mt10_1"
          = Some (_timestamp (self st) +:+ "_" +:+ name_seed (self st))) as Hid.
  { apply H.
    - transitivity (Done (value_or tt o) (final_state o));
        [by_running | by destruct (value_or tt o)].
    - by_running.
    - vm_compute. reflexivity. }
  vm_compute in Hid. discriminate Hid.
Qed.

(** A tracked on-policy run on an empty store: the periodic save of step 50
    has the best metric, step 101 is the final one. *)
Lemma final_checkpoint_then_artifacts_witness :
  ∃ st3 : State X0,
    run (tracked (process0 (experiment0 false true false) [])) = Done tt st3
    ∧ EvLogArtifact "1800000000_mt10_1_final_agent_checkpoint"
        "/work/run_results/mt10_1/checkpoints/101" ∈ trace st3
    ∧ EvLogArtifact "1800000000_mt10_1_best_agent_checkpoint"
        "/work/run_results/mt10_1/checkpoints/50" ∈ trace st3.
Proof.
  set (st := tracked (process0 (experiment0 false true false) [])).
  set (o1 := run_until_train st).
  set (l := value_or no_locals o1).
  set (o2 := call_train l (final_state o1)).
  set (r := value_or ((false, 0), 0) o2).
  edestruct (final_checkpoint_then_artifacts (X := X0) st l (final_state o1)
               r.1 r.2 (final_state o2))
    as (st3 & Hrun & Ht & _).
  - by_evaluation.
  - by_evaluation.
  - by_running.
  - transitivity (Done r (final_state o2)); [by_running | by destruct r].
  - by_evaluation.
  - by_evaluation.
  - by_evaluation.
  - exists st3. split; [exact Hrun|]. rewrite Ht.
    split; apply elem_of_app; right.
    + do 3 apply list_elem_of_further. apply list_elem_of_here.
    + do 4 apply list_elem_of_further. apply list_elem_of_here.
Defined.

(** C3, as worded, fails: with checkpointing on and tracking off, [run]
    completes having saved step 50 only, not step [total_steps + 1]. *)
Lemma final_checkpoint_claim_fails_without_tracking :
  ¬ final_checkpoint_claim (process0 (experiment0 false true false) []).
Proof.
  set (st := process0 (experiment0 false true false) []).
  intros H.
  destruct (H eq_refl (final_state (run st))) as (m & args & metrics & Hin).
  { apply (done_eq tt). vm_compute; reflexivity. }
  apply elem_of_saved_steps in Hin.
  assert (saved_steps (trace (final_state (run st))) = [50]) as E
    by (vm_compute; reflexivity).
  rewrite E in Hin. apply list_elem_of_singleton in Hin. discriminate Hin.
Qed.

(** *** The further properties, on the concrete collaborators *)

(** Decides the [match] or [if] at the head of [H] by evaluating what it
    looks at. *)
Ltac step_head H :=
  lazymatch type of H with
  | match ?c with _ => _ end =>
      let v := eval vm_compute in c in
      let E := fresh "E" in
      assert (c = v) as E by (vm_compute; reflexivity);
      rewrite E in H; clear E; cbv beta iota in H
  end.

(** With checkpointing off the store of an earlier run is left alone. *)
Lemma run_without_checkpointing_witness :
  ∃ st3 : State X0,
    run (process0 (experiment0 false false false) disk_step7) = Done tt st3
    ∧ disk st3 = disk_step7
    ∧ trace st3
      = [EvSpawn 1; EvInitialize 1; EvRandomSeed 1; EvNpRandomSeed 1;
         @EvTrain X0 (false, 1) None].
Proof.
  destruct (run_without_checkpointing (X := X0)
              (process0 (experiment0 false false false) disk_step7) (false, 1))
    as (st3 & Hrun & _ & Hdisk & _ & Ht).
  - reflexivity.
  - reflexivity.
  - reflexivity.
  - reflexivity.
  - reflexivity.
  - exists st3. split; [exact Hrun|]. split; [exact Hdisk | exact Ht].
Defined.

(** With resume off, step 7 of the store is not looked at. *)
Lemma fresh_start_restores_nothing_witness :
  ∃ (l : Locals X0) (st1 : State X0),
    run_until_train (process0 (experiment0 false true false) disk_step7) = Done l st1
    ∧ the_algorithm l = (false, 1)
    ∧ py_rng st1 = 1
    ∧ np_rng st1 = 2
    ∧ trace st1
      = [EvSpawn 1; EvInitialize 1; EvRandomSeed 1; EvNpRandomSeed 1; EvOpen manager0].
Proof.
  destruct (fresh_start_restores_nothing (X := X0)
              (process0 (experiment0 false true false) disk_step7) (false, 1))
    as (st1 & Hrun & _ & Hpy & Hnp & _ & Ht).
  - reflexivity.
  - reflexivity.
  - reflexivity.
  - reflexivity.
  - reflexivity.
  - left. reflexivity.
  - eexists _, st1. split; [exact Hrun|]. split; [reflexivity|].
    split; [exact Hpy|]. split; [exact Hnp | exact Ht].
Defined.

(** Metadata stored as [None] stops a resumed run on the assertion. *)
Lemma resume_outcome_witness :
  raises run (process0 (experiment0 false true true) disk_null_metadata)
    (AssertionError EmptyString).
Proof.
  set (st := process0 (experiment0 false true true) disk_null_metadata).
  assert (latest_checkpoint st (false, 1) = Some 7) as Hlatest by by_evaluation.
  pose proof (resume_outcome (X := X0) st (false, 1) 7
                eq_refl eq_refl eq_refl eq_refl eq_refl eq_refl Hlatest) as H.
  cbv zeta in H. step_head H. step_head H. step_head H. exact H.
Defined.

Lemma resume_adopts_timestamp_witness :
  _timestamp
    (self (final_state
             (run_until_train (process0 (experiment0 false true true) disk_step7))))
  = "1700000000".
Proof.
  set (st := process0 (experiment0 false true true) disk_step7).
  set (o := run_until_train st).
  destruct (resume_adopts_timestamp (X := X0) st (false, 1) 7
              (value_or no_locals o) (final_state o))
    as (md & n & Hmd & _ & Hself & _);
    [reflexivity | reflexivity | reflexivity | by_evaluation | by_running |].
  evaluate_in Hmd. injection Hmd as <-. rewrite Hself. reflexivity.
Defined.

(** An untracked run with checkpointing saves step 50 on its way and no
    final step. *)
Lemma cleanup_only_closes_witness :
  ∃ st3 : State X0,
    run (process0 (experiment0 false true false) []) = Done tt st3
    ∧ saved_steps (trace st3) = [50].
Proof.
  set (st := process0 (experiment0 false true false) []).
  set (o1 := run_until_train st).
  set (l := value_or no_locals o1).
  set (o2 := call_train l (final_state o1)).
  set (r := value_or ((false, 0), 0) o2).
  edestruct (cleanup_only_closes (X := X0) st l (final_state o1)
               r.1 r.2 (final_state o2))
    as (st3 & Hrun & Hend).
  - reflexivity.
  - by_running.
  - transitivity (Done r (final_state o2)); [by_running | by destruct r].
  - exists st3. split; [exact Hrun|].
    change (checkpoint (self st)) with true in Hend. cbv beta iota zeta in Hend.
    destruct Hend as [-> _]. unfold saved_steps. rewrite omap_app.
    vm_compute. reflexivity.
Defined.

(** With a metric for the best checkpoint that no save reports, a tracked
    run saves steps 50 and 101, publishes the final checkpoint and then stops
    on the assertion on the best step. *)
Lemma finalizing_failures_witness :
  ∃ st3 : State X0,
    run (tracked (process0 experiment_unreported_metric []))
    = Raised (AssertionError EmptyString) st3
    ∧ saved_steps (trace st3) = [50; 101]
    ∧ EvLogArtifact "1800000000_mt10_1_final_agent_checkpoint"
        "/work/run_results/mt10_1/checkpoints/101" ∈ trace st3.
Proof.
  set (st := tracked (process0 experiment_unreported_metric [])).
  set (o1 := run_until_train st).
  set (l := value_or no_locals o1).
  set (o2 := call_train l (final_state o1)).
  set (r := value_or ((false, 0), 0) o2).
  assert (checkpoint (self st) = true) as Hck by by_evaluation.
  assert (_wandb_enabled (self st) = true) as Hw by by_evaluation.
  assert (run_until_train st = Done l (final_state o1)) as Hsetup by by_running.
  assert (call_train l (final_state o1) = Done (r.1, r.2) (final_state o2)) as Htrain.
  { transitivity (Done r (final_state o2)); [by_running | by destruct r]. }
  pose proof (finalizing_failures (X := X0) st l (final_state o1) r.1 r.2
                (final_state o2) Hck Hw Hsetup Htrain) as H.
  cbv zeta in H. destruct H as (id & Hid & H).
  evaluate_in Hid. injection Hid as <-.
  step_head H.
  destruct H as (st3 & Hrun & Ht); [vm_compute; reflexivity|].
  exists st3. split; [exact Hrun|]. rewrite Ht. split.
  - unfold saved_steps. rewrite !omap_app. vm_compute. reflexivity.
  - apply elem_of_app. right. apply elem_of_app. right.
    apply list_elem_of_further. apply list_elem_of_here.
Defined.

(** A latest step without metadata makes [enable_wandb] fail on the restore,
    with the experiment already marked as tracked. *)
Lemma enable_wandb_failure_witness :
  ∃ st1 : State X0,
    enable_wandb (process0 (experiment0 false true true) disk_agent_only)
    = Raised (RuntimeError "checkpoint item missing") st1
    ∧ _wandb_enabled (self st1) = true
    ∧ wandb_run st1 = None.
Proof.
  set (st := process0 (experiment0 false true true) disk_agent_only).
  set (o := (with_self (set_wandb_enabled true);; _get_latest_checkpoint_metadata) st).
  destruct (enable_wandb_failure (X := X0) st (RuntimeError "checkpoint item missing")
              (final_state o))
    as (Hrun & Hself & Hw & _).
  - apply raised_eq. vm_compute. reflexivity.
  - exists (final_state o). split; [exact Hrun|]. split; [by rewrite Hself | exact Hw].
Defined.

Lemma name_seed_inj_witness :
  seed (experiment0 false true true) = seed (experiment0 true false false).
Proof. apply (name_seed_inj (X := X0)); reflexivity. Defined.

(** A resumed run that stops on the metadata stops [run] there. *)
Lemma run_stops_where_setup_stops_witness :
  run (process0 (experiment0 false true true) disk_null_metadata)
  = Raised (AssertionError EmptyString)
      (final_state
         (run_until_train (process0 (experiment0 false true true) disk_null_metadata))).
Proof.
  apply (run_stops_where_setup_stops (X := X0)).
  apply raised_eq. vm_compute. reflexivity.
Defined.

Lemma tpu_only_machine_refused_witness :
  run (process_tpu (experiment0 false true false) [])
  = Raised (RuntimeError (unknown_backend "gpu" "cpu,tpu"))
      (process_tpu (experiment0 false true false) []).
Proof.
  destruct (tpu_only_machine_refused (X := X0)
              (process_tpu (experiment0 false true false) [])
              (unknown_backend "gpu" "cpu,tpu") 7 eq_refl eq_refl)
    as [_ Hrun].
  exact Hrun.
Defined.

Lemma seed_out_of_range_stops_run_witness :
  ∃ st1 : State X0,
    run (process0 experiment_negative_seed []) = Raised seed_out_of_range st1
    ∧ trace st1
      = [EvSpawn (-1); EvInitialize (-1); EvRandomSeed (-1); EvNpRandomSeed (-1)].
Proof.
  destruct (seed_out_of_range_stops_run (X := X0)
              (process0 experiment_negative_seed []) (false, -1)
              eq_refl eq_refl eq_refl)
    as (st1 & Hrun & Ht & _).
  exists st1. split; [exact Hrun | exact Ht].
Defined.

(** A run marked as tracked before [wandb.init] was called stops on the
    report of the number of parameters. *)
Lemma tracked_run_needs_wandb_init_witness :
  raises run (process0 (set_wandb_enabled true (experiment0 false true false)) [])
    wandb_not_initialised.
Proof.
  destruct (tracked_run_needs_wandb_init (X := X0)
              (process0 (set_wandb_enabled true (experiment0 false true false)) [])
              eq_refl eq_refl)
    as (_ & _ & H).
  apply (H (false, 1)); [reflexivity..|]. right. left. reflexivity.
Defined.

End Experiment_facts.
